(** * MCP bridge for UE5: the command client and the asset manager

    A shallow embedding of
      - [MCPClient.cpp]        (class [FMCPClient]: the transport and the
                                command client), and
      - [MCPAssetManager.cpp]  (class [UMCPAssetManager]: configuration,
                                import mediation, placement),
    with the properties the specification states about them.

    Conventions.
      - [FString] is [string]; the Japanese literals of the source are kept
        byte for byte (UTF-8).
      - A [TFunction] passed as a completion callback is a function into a
        trace of events; invoking the callback the caller supplied is the
        event [Call].
      - Engine services whose implementation is not part of the plugin (the
        JSON reader and writer, the number conversions of the JSON value
        classes, actor spawning) are section variables. *)

From stdpp Require Import gmap strings list fin_maps.
From Stdlib Require Import ZArith Ascii DecimalString.

Set Warnings "-register-all".
Open Scope string_scope.
Open Scope list_scope.
Open Scope Z_scope.

(** ** Engine strings *)

Module FString.

(** [TEXT("http://%s:%d")] and friends: [%d] on an [int32]. *)
Definition FromInt (n : Z) : string := NilEmpty.string_of_int (Z.to_int n).

Definition IsUpperAscii (c : ascii) : bool :=
  (65 <=? nat_of_ascii c)%nat && (nat_of_ascii c <=? 90)%nat.

(** The [LowerAscii] table of the platform string functions. *)
Definition LowerAscii (c : ascii) : ascii :=
  if IsUpperAscii c then ascii_of_nat (nat_of_ascii c + 32) else c.

Definition IsAscii (c : ascii) : bool := (nat_of_ascii c <? 128)%nat.

(** [FPlatformString::Stricmp(A, B) == 0]: code units are compared one by
    one; two different units still match when both are ASCII and agree
    after lower-casing. *)
Fixpoint StricmpIsZero (a b : string) : bool :=
  match a, b with
  | EmptyString, EmptyString => true
  | String c1 a', String c2 b' =>
      if Ascii.eqb c1 c2 then StricmpIsZero a' b'
      else if IsAscii c1 && IsAscii c2
           then Ascii.eqb (LowerAscii c1) (LowerAscii c2) && StricmpIsZero a' b'
           else false
  | _, _ => false
  end.

(** [operator==] between an [FString] and a [TEXT] literal: the engine
    compares strings ignoring case. *)
Definition Equals (Lhs Rhs : string) : bool := StricmpIsZero Lhs Rhs.

Definition IsEmpty (s : string) : bool :=
  match s with EmptyString => true | _ => false end.

Fixpoint LastChar (s : string) : option ascii :=
  match s with
  | EmptyString => None
  | String c EmptyString => Some c
  | String _ s' => LastChar s'
  end.

Definition FirstChar (s : string) : option ascii :=
  match s with EmptyString => None | String c _ => Some c end.

Definition IsSeparator (c : ascii) : bool :=
  Ascii.eqb c "/"%char || Ascii.eqb c "\"%char.

(** Whether the string is non-empty and its last character is neither
    ['/'] nor ['\']. *)
Definition LacksTrailingSeparator (s : string) : bool :=
  match LastChar s with
  | Some c => negb (IsSeparator c)
  | None => false
  end.

Definition StartsWithSlash (s : string) : bool :=
  match FirstChar s with
  | Some c => Ascii.eqb c "/"%char
  | None => false
  end.

(** [operator/(const FString&, const FString&)], that is [PathAppend]: one
    ['/'] goes between the two parts unless the left part is empty or
    already ends in a separator, or the right part starts with ['/']. *)
Definition PathAppend (Lhs Str : string) : string :=
  if IsEmpty Str then
    if LacksTrailingSeparator Lhs then Lhs +:+ "/" else Lhs
  else
    if LacksTrailingSeparator Lhs && negb (StartsWithSlash Str)
    then Lhs +:+ "/" +:+ Str
    else Lhs +:+ Str.

End FString.

Infix "</>" := FString.PathAppend (at level 40, left associativity).

(** ** Observable events *)

Inductive ELogVerbosity : Type := Error | Log.

(** What a piece of plugin code does besides computing: it writes log lines,
    touches the file system, queries the asset registry, and invokes the
    completion callback its caller handed in ([Call], carrying the
    arguments of the invocation). [NullDereference] is [->] applied to a
    null [TSharedPtr]: nothing runs after it. *)
Inductive Event (U : Type) : Type :=
| UE_LOG (Verbosity : ELogVerbosity) (Message : string)
| FileExists (Path : string)
| LoadFileToString (Path : string)
| GetAssets (PackagePath : string) (bRecursivePaths : bool)
| NullDereference
| Call (Args : U).

Arguments UE_LOG {U} _ _.
Arguments FileExists {U} _.
Arguments LoadFileToString {U} _.
Arguments GetAssets {U} _ _.
Arguments NullDereference {U}.
Arguments Call {U} _.

Definition Trace (U : Type) : Type := list (Event U).

(** The arguments of the invocations of the caller's callback along a
    trace, in order. *)
Fixpoint Delivered {U} (t : Trace U) : list U :=
  match t with
  | [] => []
  | Call a :: t' => a :: Delivered t'
  | _ :: t' => Delivered t'
  end.

(** How many times the caller's callback was invoked. *)
Definition Invocations {U} (t : Trace U) : nat := length (Delivered t).

(** The continuations that only record what they are given. *)
Definition Report {A} : A -> Trace A := fun a => [Call a].
Definition Report2 {A B} : A -> B -> Trace (A * B) := fun a b => [Call (a, b)].

Definition ReadsFiles {U} (e : Event U) : bool :=
  match e with FileExists _ | LoadFileToString _ => true | _ => false end.

(** ** HTTP completion *)

Record FHttpResponse : Type := {
  GetResponseCode : Z;
  GetContentAsString : string
}.

(** The arguments of the [OnProcessRequestComplete] delegate (the request
    pointer is not used by the plugin). [Response = None] is an invalid
    [FHttpResponsePtr]. *)
Record HttpCompletion : Type := {
  Response : option FHttpResponse;
  bConnectedSuccessfully : bool
}.

Module EHttpResponseCodes.
Definition Ok : Z := 200.
End EHttpResponseCodes.

(** A request handed to [ProcessRequest], with the lambda bound to its
    completion delegate. *)
Record HttpRequest (U : Type) : Type := {
  URL : string;
  Verb : string;
  Headers : list (string * string);
  Content : string;
  OnProcessRequestComplete : HttpCompletion -> Trace U
}.

Arguments URL {U} _.
Arguments Verb {U} _.
Arguments Headers {U} _.
Arguments Content {U} _.
Arguments OnProcessRequestComplete {U} _ _.

(** The HTTP module holds the requests in flight. [ProcessRequest] adds the
    request; the module finishes a request in flight with some completion,
    which takes it out and fires its delegate. *)
Definition InFlight (U : Type) : Type := list (HttpRequest U).

Definition ProcessRequest {U} (r : HttpRequest U) (Pending : InFlight U) : InFlight U :=
  Pending ++ [r].

Inductive Finish {U} : InFlight U * Trace U -> InFlight U * Trace U -> Prop :=
| Finish_request (Before After : InFlight U) (r : HttpRequest U) (Seen : Trace U)
    (c : HttpCompletion) :
    Finish (Before ++ r :: After, Seen)
           (Before ++ After, Seen ++ OnProcessRequestComplete r c).

Section MCP.

(** ** Engine services *)

(** JSON numbers are C++ [double]s. The plugin never computes with them;
    it only converts them, so the type and its conversions stay abstract. *)
Variable double : Type.
(** [(int32)d] *)
Variable DoubleToInt32 : double -> Z.
(** [FString::SanitizeFloat(d, 0)], the text of a number asked for as a
    string. *)
Variable SanitizeFloat : double -> string.
(** A string asked for as a number: [Some (Atod s)] when [s.IsNumeric()]. *)
Variable Atod : string -> option double.

(** [FJsonValue] and its subclasses. An [FJsonObject] is its [Values] map. *)
Inductive FJsonValue : Type :=
| JsonNull
| JsonString (Value : string)
| JsonNumber (Value : double)
| JsonBoolean (Value : bool)
| JsonArray (Value : list FJsonValue)
| JsonObject (Values : gmap string FJsonValue).

Abbreviation FJsonObject := (gmap string FJsonValue).

(** [FJsonSerializer::Deserialize(Reader, JsonObject)]: [Some] exactly when
    the text is well-formed JSON whose root is an object; otherwise the
    out-parameter is left as it was. *)
Variable Deserialize : string -> option FJsonObject.
(** [FJsonSerializer::Serialize(Object, Writer)] into a string. *)
Variable Serialize : FJsonObject -> string.

(** [FPaths::ProjectConfigDir()] *)
Variable ProjectConfigDir : string.

(** ** [FJsonObject] accessors *)

Definition SetStringField (FieldName Value : string) (o : FJsonObject) : FJsonObject :=
  <[FieldName := JsonString Value]> o.

(** An invalid object pointer is stored as a null value. *)
Definition SetObjectField (FieldName : string) (Obj : option FJsonObject)
    (o : FJsonObject) : FJsonObject :=
  match Obj with
  | Some v => <[FieldName := JsonObject v]> o
  | None => <[FieldName := JsonNull]> o
  end.

(** [FJsonValue::AsString]: the empty string when the value has no string
    form. *)
Definition AsString (v : FJsonValue) : string :=
  match v with
  | JsonString s => s
  | JsonNumber d => SanitizeFloat d
  | JsonBoolean b => if b then "true" else "false"
  | JsonNull | JsonArray _ | JsonObject _ => ""
  end.

(** [(int32) FJsonValue::AsNumber()]: zero when the value has no number
    form. *)
Definition AsInteger (v : FJsonValue) : Z :=
  match v with
  | JsonNumber d => DoubleToInt32 d
  | JsonString s => match Atod s with Some d => DoubleToInt32 d | None => 0 end
  | JsonBoolean b => if b then 1 else 0
  | JsonNull | JsonArray _ | JsonObject _ => 0
  end.

(** A missing field reads as a null value. *)
Definition GetField (o : FJsonObject) (FieldName : string) : FJsonValue :=
  default JsonNull (o !! FieldName).

Definition GetStringField (o : FJsonObject) (FieldName : string) : string :=
  AsString (GetField o FieldName).

Definition GetIntegerField (o : FJsonObject) (FieldName : string) : Z :=
  AsInteger (GetField o FieldName).

Definition TryGetObjectField (o : FJsonObject) (FieldName : string) : option FJsonObject :=
  match o !! FieldName with
  | Some (JsonObject v) => Some v
  | _ => None
  end.

(** ** [FMCPClient] *)

Record FMCPClient : Type := { ServerURL : string }.

(** [FMCPClient::FMCPClient()] *)
Definition FMCPClient_ctor : FMCPClient :=
  {| ServerURL := "http://127.0.0.1:8080" |}.

Definition FMCPClient_SetServerURL {U} (this : FMCPClient) (InServerURL : string)
    : FMCPClient * Trace U :=
  ({| ServerURL := InServerURL |},
   [UE_LOG Log ("MCPサーバーURLを設定しました: " +:+ InServerURL)]).

(** What the completion lambda of [SendPostRequest] and of [SendGetRequest]
    (the two bodies are the same text) computes before it calls back: the
    log line, [bSuccess] and [JsonResponse]. *)
Definition Completed {U} (c : HttpCompletion) : Trace U * bool * option FJsonObject :=
  match bConnectedSuccessfully c, Response c with
  | true, Some R =>
      if GetResponseCode R =? EHttpResponseCodes.Ok then
        match Deserialize (GetContentAsString R) with
        | Some JsonResponse => ([], true, Some JsonResponse)
        | None =>
            ([UE_LOG Error ("JSONのパースに失敗しました: " +:+ GetContentAsString R)],
             false, None)
        end
      else
        ([UE_LOG Error ("HTTPリクエストが失敗しました: "
                        +:+ FString.FromInt (GetResponseCode R))],
         false, None)
  | _, _ =>
      ([UE_LOG Error "HTTPリクエストの接続に失敗しました"], false, None)
  end.

Definition CompletionLambda {U}
    (OnCompleteCallback : bool -> option FJsonObject -> Trace U)
    (c : HttpCompletion) : Trace U :=
  let '(Logged, bSuccess, JsonResponse) := Completed c in
  Logged ++ OnCompleteCallback bSuccess JsonResponse.

Definition FMCPClient_SendPostRequest {U} (URL JsonPayload : string)
    (OnCompleteCallback : bool -> option FJsonObject -> Trace U) : HttpRequest U :=
  {| URL := URL;
     Verb := "POST";
     Headers := [("Content-Type", "application/json")];
     Content := JsonPayload;
     OnProcessRequestComplete := CompletionLambda OnCompleteCallback |}.

Definition FMCPClient_SendGetRequest {U} (URL : string)
    (OnCompleteCallback : bool -> option FJsonObject -> Trace U) : HttpRequest U :=
  {| URL := URL;
     Verb := "GET";
     Headers := [];
     Content := "";
     OnProcessRequestComplete := CompletionLambda OnCompleteCallback |}.

(** The lambda [CheckConnection] hands to [SendGetRequest]. *)
Definition CheckConnection_Lambda {U} (OnCompleteCallback : bool -> string -> Trace U)
    (bSuccess : bool) (Response : option FJsonObject) : Trace U :=
  if bSuccess then
    match Response with
    | Some R =>
        let Status := GetStringField R "status" in
        if FString.Equals Status "running" then
          OnCompleteCallback true "MCPサーバーに接続しました"
        else
          OnCompleteCallback false ("MCPサーバーの状態が異常です: " +:+ Status)
    | None => [NullDereference]
    end
  else
    OnCompleteCallback false "MCPサーバーに接続できませんでした".

Definition FMCPClient_CheckConnection {U} (this : FMCPClient)
    (OnCompleteCallback : bool -> string -> Trace U) : HttpRequest U :=
  FMCPClient_SendGetRequest (ServerURL this +:+ "/status")
    (CheckConnection_Lambda OnCompleteCallback).

(** The request envelope: [command] is set first, then [params]. *)
Definition RequestObj (Command : string) (Params : option FJsonObject) : FJsonObject :=
  SetObjectField "params" Params (SetStringField "command" Command ∅).

Definition FMCPClient_ExecuteBlenderCommand {U} (this : FMCPClient)
    (Command : string) (Params : option FJsonObject)
    (OnCompleteCallback : bool -> option FJsonObject -> Trace U) : HttpRequest U :=
  let JsonPayload := Serialize (RequestObj Command Params) in
  FMCPClient_SendPostRequest (ServerURL this +:+ "/api/blender/command")
    JsonPayload OnCompleteCallback.

Definition ImportAsset_Params (AssetPath DestinationPath : string) : FJsonObject :=
  SetStringField "destination" DestinationPath (SetStringField "path" AssetPath ∅).

(** The lambda [ImportAsset] hands to [SendPostRequest]. *)
Definition ImportAsset_Lambda {U} (OnCompleteCallback : bool -> string -> Trace U)
    (bSuccess : bool) (Response : option FJsonObject) : Trace U :=
  if bSuccess then
    match Response with
    | Some R =>
        let AssetName :=
          match TryGetObjectField R "result" with
          | Some ResultObj =>
              match TryGetObjectField ResultObj "asset_info" with
              | Some AssetInfoObj => GetStringField AssetInfoObj "name"
              | None => ""
              end
          | None => ""
          end in
        OnCompleteCallback true AssetName
    | None => [NullDereference]
    end
  else
    OnCompleteCallback false "".

Definition FMCPClient_ImportAsset {U} (this : FMCPClient)
    (AssetPath DestinationPath : string)
    (OnCompleteCallback : bool -> string -> Trace U) : HttpRequest U :=
  let Params := ImportAsset_Params AssetPath DestinationPath in
  let JsonPayload := Serialize (RequestObj "import_asset" (Some Params)) in
  FMCPClient_SendPostRequest (ServerURL this +:+ "/api/unreal/command")
    JsonPayload (ImportAsset_Lambda OnCompleteCallback).

Definition SetGameMode_Params (GameModePath : string) : FJsonObject :=
  SetStringField "game_mode" GameModePath ∅.

Definition FMCPClient_SetGameMode {U} (this : FMCPClient) (GameModePath : string)
    (OnCompleteCallback : bool -> Trace U) : HttpRequest U :=
  let Params := SetGameMode_Params GameModePath in
  let JsonPayload := Serialize (RequestObj "set_game_mode" (Some Params)) in
  FMCPClient_SendPostRequest (ServerURL this +:+ "/api/unreal/command")
    JsonPayload (fun bSuccess _ => OnCompleteCallback bSuccess).

Definition FMCPClient_SaveLevel {U} (this : FMCPClient)
    (OnCompleteCallback : bool -> Trace U) : HttpRequest U :=
  let JsonPayload := Serialize (RequestObj "save_level" (Some ∅)) in
  FMCPClient_SendPostRequest (ServerURL this +:+ "/api/unreal/command")
    JsonPayload (fun bSuccess _ => OnCompleteCallback bSuccess).

(** ** [UMCPAssetManager] *)

Record FMCPAssetImportResult : Type := {
  bSuccess : bool;
  AssetPath : string;
  AssetName : string;
  ErrorMessage : string
}.

(** [FMCPAssetImportResult::FMCPAssetImportResult()] *)
Definition FMCPAssetImportResult_ctor : FMCPAssetImportResult :=
  {| bSuccess := false; AssetPath := ""; AssetName := ""; ErrorMessage := "" |}.

Record UMCPAssetManager : Type := {
  MCPClient : FMCPClient;
  bInitialized : bool
}.

(** [UMCPAssetManager::UMCPAssetManager()] *)
Definition UMCPAssetManager_ctor : UMCPAssetManager :=
  {| MCPClient := FMCPClient_ctor; bInitialized := false |}.

(** The files under the project: a path is absent, or present with its
    text, or present and unreadable ([Some None]). *)
Abbreviation FileSystem := (gmap string (option string)).

Definition ConfigFilePath : string := ProjectConfigDir </> "mcp_settings.json".

(** The part of [Initialize] that runs when the manager is not yet
    initialized, up to the assignment of the flag: the client it leaves
    and what it did. *)
Definition LoadServerURL {U} (Files : FileSystem) (Client : FMCPClient)
    : FMCPClient * Trace U :=
  match Files !! ConfigFilePath with
  | Some File =>
      match File with
      | Some JsonContent =>
          match Deserialize JsonContent with
          | Some JsonObj =>
              match TryGetObjectField JsonObj "server" with
              | Some ServerObj =>
                  let Host := GetStringField ServerObj "host" in
                  let Port := GetIntegerField ServerObj "port" in
                  let ServerUrl := "http://" +:+ Host +:+ ":" +:+ FString.FromInt Port in
                  let '(Client', Logged) := FMCPClient_SetServerURL Client ServerUrl in
                  (Client', [FileExists ConfigFilePath; LoadFileToString ConfigFilePath]
                            ++ Logged)
              | None =>
                  (Client, [FileExists ConfigFilePath; LoadFileToString ConfigFilePath])
              end
          | None =>
              (Client, [FileExists ConfigFilePath; LoadFileToString ConfigFilePath])
          end
      | None =>
          (Client, [FileExists ConfigFilePath; LoadFileToString ConfigFilePath])
      end
  | None => (Client, [FileExists ConfigFilePath])
  end.

Definition UMCPAssetManager_Initialize {U} (Files : FileSystem) (this : UMCPAssetManager)
    : bool * UMCPAssetManager * Trace U :=
  if bInitialized this then (true, this, [])
  else
    let '(Client, Done) := LoadServerURL Files (MCPClient this) in
    (true, {| MCPClient := Client; bInitialized := true |}, Done).

(** [UMCPAssetManager::Get()], over the static [Instance]: the instance
    returned is the one stored. *)
Definition UMCPAssetManager_Get {U} (Files : FileSystem)
    (Instance : option UMCPAssetManager) : UMCPAssetManager * Trace U :=
  match Instance with
  | Some this => (this, [])
  | None =>
      let '(_, this, Done) := UMCPAssetManager_Initialize Files UMCPAssetManager_ctor in
      (this, Done)
  end.

Definition UMCPAssetManager_CheckServerConnection {U} (this : UMCPAssetManager)
    (OnCompleteCallback : bool -> string -> Trace U) : HttpRequest U :=
  FMCPClient_CheckConnection (MCPClient this) OnCompleteCallback.

Definition Set_bSuccess (v : bool) (r : FMCPAssetImportResult) : FMCPAssetImportResult :=
  {| bSuccess := v; AssetPath := AssetPath r; AssetName := AssetName r;
     ErrorMessage := ErrorMessage r |}.
Definition Set_AssetPath (v : string) (r : FMCPAssetImportResult) : FMCPAssetImportResult :=
  {| bSuccess := bSuccess r; AssetPath := v; AssetName := AssetName r;
     ErrorMessage := ErrorMessage r |}.
Definition Set_AssetName (v : string) (r : FMCPAssetImportResult) : FMCPAssetImportResult :=
  {| bSuccess := bSuccess r; AssetPath := AssetPath r; AssetName := v;
     ErrorMessage := ErrorMessage r |}.
Definition Set_ErrorMessage (v : string) (r : FMCPAssetImportResult) : FMCPAssetImportResult :=
  {| bSuccess := bSuccess r; AssetPath := AssetPath r; AssetName := AssetName r;
     ErrorMessage := v |}.

(** The lambda [ImportBlenderModel] hands to [ImportAsset]. *)
Definition ImportBlenderModel_Lambda {U} (ModelPath DestinationPath : string)
    (OnCompleteCallback : FMCPAssetImportResult -> Trace U)
    (bSuccess : bool) (AssetName : string) : Trace U :=
  let Result := Set_bSuccess bSuccess FMCPAssetImportResult_ctor in
  if bSuccess then
    let Result := Set_AssetName AssetName Result in
    let Result := Set_AssetPath (DestinationPath </> AssetName) Result in
    [GetAssets DestinationPath true;
     UE_LOG Log ("Blenderモデル '" +:+ ModelPath +:+ "' をインポートしました: "
                 +:+ AssetPath Result)]
    ++ OnCompleteCallback Result
  else
    let Result :=
      Set_ErrorMessage ("アセットのインポートに失敗しました: " +:+ ModelPath) Result in
    [UE_LOG Error (ErrorMessage Result)] ++ OnCompleteCallback Result.

Definition UMCPAssetManager_ImportBlenderModel {U} (this : UMCPAssetManager)
    (ModelPath DestinationPath : string)
    (OnCompleteCallback : FMCPAssetImportResult -> Trace U) : HttpRequest U :=
  FMCPClient_ImportAsset (MCPClient this) ModelPath DestinationPath
    (ImportBlenderModel_Lambda ModelPath DestinationPath OnCompleteCallback).

(** ** Placement: the engine side *)

Variable FVector : Type.
Variable FRotator : Type.

Record UClass : Type := { GetPathName : string }.

(** What [LoadObject<UObject>] can return, as far as the casts of
    [PlaceAssetInLevel] tell objects apart. *)
Inductive UObject : Type :=
| UStaticMesh (Name : string)
| UBlueprint (GeneratedClass : option UClass)
| UOther.

Inductive ActorClass : Type :=
| AStaticMeshActor_StaticClass
| BPClass (c : UClass).

Record AActor : Type := {
  Class : ActorClass;
  ActorLocation : FVector;
  ActorRotation : FRotator;
  StaticMesh : option UObject;
  ActorScale3D : option FVector;
  ActorLabel : option string
}.

(** [UWorld]: the actors spawned so far. *)
Abbreviation UWorld := (list AActor).

(** Whether [SpawnActor] returns an actor (it may refuse, for instance on
    a collision at the spawn point). *)
Variable SpawnActorSucceeds : UWorld -> ActorClass -> FVector -> FRotator -> bool.

Inductive ENamedThreads : Type :=
| GameThread
| AnyThread (Id : nat).

Definition IsInGameThread (Current : ENamedThreads) : bool :=
  match Current with GameThread => true | AnyThread _ => false end.

(** The lambda [PlaceAssetInLevel] posts with [AsyncTask]: its captures. *)
Record PlaceAssetTask : Type := {
  Task_Target : ENamedThreads;
  Task_AssetPath : string;
  Task_Location : FVector;
  Task_Rotation : FRotator;
  Task_Scale : FVector;
  Task_ActorName : string
}.

(** The engine state the placement touches: the loadable assets, the
    editor world (if there is one), and the tasks queued with
    [AsyncTask]. *)
Record Engine : Type := {
  Assets : gmap string UObject;
  EditorWorld : option UWorld;
  TaskQueue : list PlaceAssetTask
}.

Definition SetLabel (ActorName : string) : option string :=
  if FString.IsEmpty ActorName then None else Some ActorName.

(** The last two lines of [PlaceAssetInLevel]. *)
Definition PlaceAssetInLevel_Failed {U} (AssetPath : string) (E : Engine)
    : bool * Engine * Trace U :=
  (false, E, [UE_LOG Error ("アセットの配置に失敗しました: " +:+ AssetPath)]).

(** Spawn in the editor world, then scale and label the actor. *)
Definition SpawnAndSetUp {U} (AssetPath Placed : string) (Cls : ActorClass)
    (Mesh : option UObject)
    (Location : FVector) (Rotation : FRotator) (Scale : FVector) (ActorName : string)
    (E : Engine) : bool * Engine * Trace U :=
  match EditorWorld E with
  | Some World =>
      if SpawnActorSucceeds World Cls Location Rotation then
        let Actor := {| Class := Cls;
                        ActorLocation := Location;
                        ActorRotation := Rotation;
                        StaticMesh := Mesh;
                        ActorScale3D := Some Scale;
                        ActorLabel := SetLabel ActorName |} in
        (true,
         {| Assets := Assets E;
            EditorWorld := Some (World ++ [Actor]);
            TaskQueue := TaskQueue E |},
         [UE_LOG Log (Placed +:+ " '" +:+ AssetPath +:+ "' をレベルに配置しました")])
      else PlaceAssetInLevel_Failed AssetPath E
  | None => PlaceAssetInLevel_Failed AssetPath E
  end.

(** [WITH_EDITOR] is the build switch around the body; [Current] is the
    thread the call runs on. *)
Definition UMCPAssetManager_PlaceAssetInLevel {U} (WITH_EDITOR : bool)
    (Current : ENamedThreads)
    (AssetPath : string) (Location : FVector) (Rotation : FRotator) (Scale : FVector)
    (ActorName : string) (E : Engine) : bool * Engine * Trace U :=
  if WITH_EDITOR then
    if negb (IsInGameThread Current) then
      (true,
       {| Assets := Assets E;
          EditorWorld := EditorWorld E;
          TaskQueue := TaskQueue E ++
            [{| Task_Target := GameThread;
                Task_AssetPath := AssetPath;
                Task_Location := Location;
                Task_Rotation := Rotation;
                Task_Scale := Scale;
                Task_ActorName := ActorName |}] |},
       [])
    else
      match Assets E !! AssetPath with
      | None => (false, E, [UE_LOG Error ("アセットを読み込めませんでした: " +:+ AssetPath)])
      | Some Asset =>
          match Asset with
          | UStaticMesh _ =>
              SpawnAndSetUp AssetPath "アセット" AStaticMeshActor_StaticClass (Some Asset)
                Location Rotation Scale ActorName E
          | UBlueprint (Some Generated) =>
              SpawnAndSetUp AssetPath "ブループリント" (BPClass Generated) None
                Location Rotation Scale ActorName E
          | UBlueprint None | UOther => PlaceAssetInLevel_Failed AssetPath E
          end
      end
  else PlaceAssetInLevel_Failed AssetPath E.

(** The thread named by a task runs its lambda: a call of
    [PlaceAssetInLevel] with the captured arguments, the result dropped. *)
Definition RunTask {U} (WITH_EDITOR : bool) (T : PlaceAssetTask) (E : Engine)
    : Engine * Trace U :=
  let '(_, E', Done) :=
    UMCPAssetManager_PlaceAssetInLevel WITH_EDITOR (Task_Target T)
      (Task_AssetPath T) (Task_Location T) (Task_Rotation T) (Task_Scale T)
      (Task_ActorName T) E in
  (E', Done).

(** [UMCPAssetManager::SetGameMode]: the class reference may be null; the
    request, if any, completes into a log line only. *)
Definition UMCPAssetManager_SetGameMode {U} (this : UMCPAssetManager)
    (GameModeClass : option UClass) : bool * option (HttpRequest U) * Trace U :=
  match GameModeClass with
  | None => (false, None, [UE_LOG Error "ゲームモードクラスが無効です"])
  | Some Cls =>
      let GameModePath := GetPathName Cls in
      (true,
       Some (FMCPClient_SetGameMode (MCPClient this) GameModePath
               (fun bSuccess =>
                  if bSuccess then [UE_LOG Log "ゲームモードを設定しました"]
                  else [UE_LOG Error "ゲームモードの設定に失敗しました"])),
       [])
  end.

(** ** The operations that complete through a continuation *)

Inductive AsyncOperation : Type :=
| CheckConnection
| ExecuteBlenderCommand (Command : string) (Params : option FJsonObject)
| ImportAsset (AssetPath DestinationPath : string)
| SetGameMode (GameModePath : string)
| SaveLevel
| ImportBlenderModel (ModelPath DestinationPath : string)
| CheckServerConnection.

(** The arguments the continuation of each operation takes. *)
Definition Completion (Op : AsyncOperation) : Type :=
  match Op with
  | CheckConnection | CheckServerConnection => (bool * string)%type
  | ExecuteBlenderCommand _ _ => (bool * option FJsonObject)%type
  | ImportAsset _ _ => (bool * string)%type
  | SetGameMode _ | SaveLevel => bool
  | ImportBlenderModel _ _ => FMCPAssetImportResult
  end.

(** The call of the operation on the manager [M] (the client operations on
    its client), with continuation [K]. *)
Definition Start {U} (M : UMCPAssetManager) (Op : AsyncOperation)
    : (Completion Op -> Trace U) -> HttpRequest U :=
  match Op with
  | CheckConnection =>
      fun K => FMCPClient_CheckConnection (MCPClient M) (fun b m => K (b, m))
  | ExecuteBlenderCommand Command Params =>
      fun K => FMCPClient_ExecuteBlenderCommand (MCPClient M) Command Params
                 (fun b j => K (b, j))
  | ImportAsset Src Dest =>
      fun K => FMCPClient_ImportAsset (MCPClient M) Src Dest (fun b n => K (b, n))
  | SetGameMode GameModePath =>
      fun K => FMCPClient_SetGameMode (MCPClient M) GameModePath K
  | SaveLevel =>
      fun K => FMCPClient_SaveLevel (MCPClient M) K
  | ImportBlenderModel ModelPath Dest =>
      fun K => UMCPAssetManager_ImportBlenderModel M ModelPath Dest K
  | CheckServerConnection =>
      fun K => UMCPAssetManager_CheckServerConnection M (fun b m => K (b, m))
  end.

(** The path each operation appends to the server URL. *)
Definition Endpoint (Op : AsyncOperation) : string :=
  match Op with
  | CheckConnection | CheckServerConnection => "/status"
  | ExecuteBlenderCommand _ _ => "/api/blender/command"
  | ImportAsset _ _ | SetGameMode _ | SaveLevel | ImportBlenderModel _ _ =>
      "/api/unreal/command"
  end.

(** ** Vocabulary of the statements *)

(** The exchange behind [c] went through: connected, a valid response with
    status 200, and a body that reads as the JSON object [J]. *)
Definition ExchangeSucceeds (c : HttpCompletion) (J : FJsonObject) : Prop :=
  bConnectedSuccessfully c = true /\
  exists R, Response c = Some R /\
            GetResponseCode R = 200 /\
            Deserialize (GetContentAsString R) = Some J.

Definition ExchangeFails (c : HttpCompletion) : Prop :=
  forall J, ~ ExchangeSucceeds c J.

(** An event that is neither an invocation of the continuation nor a
    crash. *)
Definition Quiet {U} (e : Event U) : Prop :=
  match e with Call _ | NullDereference => False | _ => True end.

(** The response has no string to offer at [result.asset_info.name]. *)
Definition LacksAssetName (J : FJsonObject) : Prop :=
  forall R A, TryGetObjectField J "result" = Some R ->
              TryGetObjectField R "asset_info" = Some A ->
              A !! "name" = None.

(** The manager [Get] hands out when no instance exists yet. *)
Definition FirstGet (Files : FileSystem) : UMCPAssetManager :=
  (UMCPAssetManager_Get (U:=unit) Files None).1.

(** Whether the string ends in [":0"]. *)
Fixpoint EndsWithColonZero (s : string) : bool :=
  match s with
  | EmptyString => false
  | String _ s' => String.eqb s ":0" || EndsWithColonZero s'
  end.

(** ** The transport *)

Lemma Completed_cases {U} (c : HttpCompletion) :
  (exists J, ExchangeSucceeds c J /\ Completed (U:=U) c = ([], true, Some J)) \/
  (ExchangeFails c /\ exists Message, Completed (U:=U) c = ([UE_LOG Error Message], false, None)).
Proof.
  unfold Completed, ExchangeFails, ExchangeSucceeds.
  destruct c as [[R|] [|]]; simpl.
  - destruct (Z.eqb_spec (GetResponseCode R) EHttpResponseCodes.Ok) as [Hc|Hc].
    + destruct (Deserialize (GetContentAsString R)) as [J|] eqn:HD.
      * left. exists J. split; [|done]. split; [done|]. by exists R.
      * right. split; [|by eexists].
        intros J (_ & R' & HR & _ & HJ). congruence.
    + right. split; [|by eexists].
      intros J (_ & R' & HR & Hcode & _). apply Hc.
      unfold EHttpResponseCodes.Ok. congruence.
  - right. split; [|by eexists]. intros J (Hconn & _). done.
  - right. split; [|by eexists]. intros J (_ & R & HR & _). done.
  - right. split; [|by eexists]. intros J (Hconn & _). done.
Qed.

Lemma ExchangeSucceeds_functional c J1 J2 :
  ExchangeSucceeds c J1 -> ExchangeSucceeds c J2 -> J1 = J2.
Proof.
  intros (_ & R1 & HR1 & _ & H1) (_ & R2 & HR2 & _ & H2). congruence.
Qed.

Lemma ExchangeSucceeds_not_fails c J : ExchangeSucceeds c J -> ~ ExchangeFails c.
Proof. intros H HF. exact (HF J H). Qed.

(** The completion lambda of the transport, on a successful exchange. *)
Lemma CompletionLambda_succeeds {U} (K : bool -> option FJsonObject -> Trace U) c J :
  ExchangeSucceeds c J -> CompletionLambda K c = K true (Some J).
Proof.
  intros HS. unfold CompletionLambda.
  destruct (Completed_cases (U:=U) c) as [(J' & HS' & ->)|(HF & _)].
  - by rewrite (ExchangeSucceeds_functional _ _ _ HS HS').
  - by destruct (HF J).
Qed.

(** ... and on any other outcome: one error line, then the callback. *)
Lemma CompletionLambda_fails {U} (K : bool -> option FJsonObject -> Trace U) c :
  ExchangeFails c ->
  exists Message, CompletionLambda K c = UE_LOG Error Message :: K false None.
Proof.
  intros HF. unfold CompletionLambda.
  destruct (Completed_cases (U:=U) c) as [(J' & HS' & _)|(_ & Message & ->)].
  - by destruct (HF J').
  - by exists Message.
Qed.

Lemma Exchange_dichotomy c : (exists J, ExchangeSucceeds c J) \/ ExchangeFails c.
Proof.
  destruct (Completed_cases (U:=unit) c) as [(J & HS & _)|(HF & _)]; eauto.
Qed.

Lemma Delivered_app {U} (t1 t2 : Trace U) :
  Delivered (t1 ++ t2) = Delivered t1 ++ Delivered t2.
Proof.
  induction t1 as [|e t1 IH]; [done|].
  destruct e; simpl; by rewrite ?IH.
Qed.

Lemma Delivered_quiet {U} (t : Trace U) : Forall Quiet t -> Delivered t = [].
Proof.
  induction 1 as [|e t He _ IH]; [done|].
  destruct e; simpl in *; done.
Qed.

(** C1. Each exchange the transport issues ([SendPostRequest] and
    [SendGetRequest]) calls its continuation with [bSuccess = true] if and
    only if the connection was made, the response status is 200 and the
    body reads as a JSON object, which is then the parsed body handed
    over; in every other outcome the continuation gets [false] and a null
    parsed body. *)
Theorem Transport_success_iff (Url JsonPayload : string) (c : HttpCompletion) :
  exists (Success : bool) (Parsed : option FJsonObject),
    Delivered (OnProcessRequestComplete
                 (FMCPClient_SendPostRequest Url JsonPayload Report2) c)
      = [(Success, Parsed)] /\
    Delivered (OnProcessRequestComplete (FMCPClient_SendGetRequest Url Report2) c)
      = [(Success, Parsed)] /\
    (Success = true <->
       bConnectedSuccessfully c = true /\
       exists R, Response c = Some R /\ GetResponseCode R = 200 /\
                 exists J, Deserialize (GetContentAsString R) = Some J) /\
    (forall J, ExchangeSucceeds c J -> Parsed = Some J) /\
    (Success = false -> Parsed = None).
Proof.
  simpl.
  destruct (Exchange_dichotomy c) as [[J HS]|HF].
  - exists true, (Some J).
    rewrite (CompletionLambda_succeeds _ _ _ HS).
    repeat split; try done.
    + by destruct HS.
    + destruct HS as (_ & R & HR & Hc & HJ). exists R. eauto.
    + intros J' HS'. f_equal. eapply ExchangeSucceeds_functional; eauto.
  - exists false, None.
    destruct (CompletionLambda_fails (Report2 (A:=bool) (B:=option FJsonObject)) c HF)
      as [Message ->].
    repeat split; try done.
    + intros (Hconn & R & HR & Hc & J & HJ).
      destruct (HF J). split; [done|]. by exists R.
    + intros J HS. by destruct (HF J).
Qed.

(** ** Exactly one invocation *)

Lemma CheckConnection_Lambda_once {U} (K : bool -> string -> Trace U) b (J : FJsonObject) :
  exists a, CheckConnection_Lambda K b (Some J) = K a.1 a.2.
Proof.
  unfold CheckConnection_Lambda. destruct b.
  - destruct (FString.Equals _ _); by eexists (_, _).
  - by eexists (_, _).
Qed.

Lemma ImportAsset_Lambda_once {U} (K : bool -> string -> Trace U) b (J : FJsonObject) :
  exists a, ImportAsset_Lambda K b (Some J) = K a.1 a.2.
Proof.
  unfold ImportAsset_Lambda. destruct b; by eexists (_, _).
Qed.

Lemma ImportBlenderModel_Lambda_once {U} Src Dest
    (K : FMCPAssetImportResult -> Trace U) b Name :
  exists Pre a, ImportBlenderModel_Lambda Src Dest K b Name = Pre ++ K a /\ Forall Quiet Pre.
Proof.
  unfold ImportBlenderModel_Lambda. destruct b.
  - eexists _, _. split; [done|]. by repeat constructor.
  - eexists _, _. split; [done|]. by repeat constructor.
Qed.

(** Whatever the outcome of the exchange, the completion of an operation
    is a run of quiet events followed by one call of the continuation. *)
Lemma Start_once {U} (M : UMCPAssetManager) (Op : AsyncOperation)
    (K : Completion Op -> Trace U) (c : HttpCompletion) :
  exists Pre a,
    OnProcessRequestComplete (Start M Op K) c = Pre ++ K a /\ Forall Quiet Pre.
Proof.
  destruct (Exchange_dichotomy c) as [[J HS]|HF].
  - destruct Op; simpl in *; rewrite (CompletionLambda_succeeds _ _ _ HS).
    + destruct (CheckConnection_Lambda_once (fun b m => K (b, m)) true J) as [[b m] ->].
      by exists [], (b, m).
    + by exists [], (true, Some J).
    + destruct (ImportAsset_Lambda_once (fun b m => K (b, m)) true J) as [[b m] ->].
      by exists [], (b, m).
    + by exists [], true.
    + by exists [], true.
    + destruct (ImportAsset_Lambda_once
                  (ImportBlenderModel_Lambda ModelPath DestinationPath K) true J)
        as [[b m] ->].
      apply ImportBlenderModel_Lambda_once.
    + destruct (CheckConnection_Lambda_once (fun b m => K (b, m)) true J) as [[b m] ->].
      by exists [], (b, m).
  - destruct Op; simpl in *;
      match goal with
      | |- context [CompletionLambda ?k c] =>
          destruct (CompletionLambda_fails k c HF) as [Message ->]
      end; unfold CheckConnection_Lambda, ImportAsset_Lambda.
    + exists [UE_LOG Error Message], (false, "MCPサーバーに接続できませんでした").
      split; [done|]. by repeat constructor.
    + exists [UE_LOG Error Message], (false, None).
      split; [done|]. by repeat constructor.
    + exists [UE_LOG Error Message], (false, "").
      split; [done|]. by repeat constructor.
    + exists [UE_LOG Error Message], false.
      split; [done|]. by repeat constructor.
    + exists [UE_LOG Error Message], false.
      split; [done|]. by repeat constructor.
    + destruct (ImportBlenderModel_Lambda_once ModelPath DestinationPath K false "")
        as (Pre & a & -> & HQ).
      exists (UE_LOG Error Message :: Pre), a.
      split; [done|]. by constructor.
    + exists [UE_LOG Error Message], (false, "MCPサーバーに接続できませんでした").
      split; [done|]. by repeat constructor.
Qed.

(** C4. For every asynchronous operation of the core, every input and
    every transport outcome, the supplied continuation is invoked exactly
    once. Whatever the continuation is, the completion of the request the
    operation issued is a run of log lines and registry queries followed by
    one call of it, and it never stops on a null pointer before that. And
    along any run of the HTTP module from the moment the operation has
    issued its request, either the request is still in flight and the
    continuation has not been called, or the request is finished, nothing
    is in flight and the continuation has been called once. *)
Theorem continuation_invoked_exactly_once
    (M : UMCPAssetManager) (Op : AsyncOperation) :
  (forall (c : HttpCompletion) U (K : Completion Op -> Trace U), exists Pre a,
      OnProcessRequestComplete (Start M Op K) c = Pre ++ K a /\ Forall Quiet Pre) /\
  (forall c : HttpCompletion,
      Invocations (OnProcessRequestComplete (Start M Op Report) c) = 1%nat /\
      NullDereference ∉ OnProcessRequestComplete (Start M Op Report) c) /\
  (forall s : InFlight (Completion Op) * Trace (Completion Op),
      rtc Finish (ProcessRequest (Start M Op Report) [], []) s ->
      (s = ([Start M Op Report], []) /\ Invocations s.2 = 0%nat) \/
      (s.1 = [] /\ Invocations s.2 = 1%nat)).
Proof.
  assert (Once : forall c,
             Invocations (OnProcessRequestComplete (Start M Op Report) c) = 1%nat /\
             NullDereference ∉ OnProcessRequestComplete (Start M Op Report) c).
  { intros c. destruct (Start_once M Op Report c) as (Pre & a & -> & HQ).
    unfold Invocations. rewrite Delivered_app, (Delivered_quiet _ HQ). split; [done|].
    intros [Hin|Hin]%elem_of_app.
    - rewrite Forall_forall in HQ. exact (HQ _ Hin).
    - unfold Report in Hin. by apply list_elem_of_singleton in Hin. }
  split; [intros; apply Start_once|]. split; [exact Once|].
  apply rtc_ind_r; [by left|].
  intros s1 s2 Hrun Hstep IH.
  right. destruct IH as [[-> _]|[Hnone _]].
  - inversion Hstep as [Before After r Seen c HB HA]; subst.
    destruct Before as [|r' Before]; simplify_eq/=.
    + split; [done|]. apply Once.
    + by destruct Before.
  - inversion Hstep as [Before After r Seen c HB HA]; subst.
    simpl in Hnone. by destruct Before.
Qed.

(** ** The status probe *)

Lemma StricmpIsZero_refl (s : string) : FString.StricmpIsZero s s = true.
Proof.
  induction s as [|ch s IH]; [done|].
  simpl. by rewrite Ascii.eqb_refl.
Qed.

Lemma CheckConnection_completes (this : FMCPClient) (c : HttpCompletion) :
  Delivered (OnProcessRequestComplete (FMCPClient_CheckConnection this Report2) c)
  = match Completed (U:=unit) c with
    | (_, true, Some J) =>
        if FString.Equals (GetStringField J "status") "running"
        then [(true, "MCPサーバーに接続しました")]
        else [(false, "MCPサーバーの状態が異常です: " +:+ GetStringField J "status")]
    | _ => [(false, "MCPサーバーに接続できませんでした")]
    end.
Proof.
  simpl.
  destruct (Exchange_dichotomy c) as [[J HS]|HF].
  - rewrite (CompletionLambda_succeeds _ _ _ HS).
    destruct (Completed_cases (U:=unit) c) as [(J' & HS' & ->)|(HF & _)];
      [|by destruct (HF J)].
    rewrite (ExchangeSucceeds_functional _ _ _ HS' HS).
    unfold CheckConnection_Lambda. by destruct (FString.Equals _ _).
  - destruct (CompletionLambda_fails
                (CheckConnection_Lambda (Report2 (A:=bool) (B:=string))) c HF)
      as [Message ->].
    destruct (Completed_cases (U:=unit) c) as [(J' & HS' & _)|(_ & Message' & ->)];
      [by destruct (HF J')|done].
Qed.

(** C3, as the code has it. When the transport succeeds, [CheckConnection]
    compares the response's [status] field with ["running"] ignoring the
    case of letters: on a match (in particular when the field is exactly
    ["running"]) the continuation gets [true] and a message; otherwise it
    gets [false] and a message that ends with the value of the field.
    When the transport fails it gets [false] and a message. *)
Theorem CheckConnection_outcome (this : FMCPClient) (c : HttpCompletion) :
  let Seen :=
    Delivered (OnProcessRequestComplete (FMCPClient_CheckConnection this Report2) c) in
  (forall J, ExchangeSucceeds c J ->
     FString.Equals (GetStringField J "status") "running" = true ->
     Seen = [(true, "MCPサーバーに接続しました")]) /\
  (forall J, ExchangeSucceeds c J ->
     GetStringField J "status" = "running" ->
     Seen = [(true, "MCPサーバーに接続しました")]) /\
  (forall J, ExchangeSucceeds c J ->
     FString.Equals (GetStringField J "status") "running" = false ->
     Seen = [(false, "MCPサーバーの状態が異常です: " +:+ GetStringField J "status")]) /\
  (ExchangeFails c ->
     Seen = [(false, "MCPサーバーに接続できませんでした")]).
Proof.
  intros Seen. subst Seen. rewrite CheckConnection_completes.
  destruct (Completed_cases (U:=unit) c) as [(J' & HS' & ->)|(HF & Message & ->)].
  - repeat split.
    + intros J HS Heq. by rewrite (ExchangeSucceeds_functional _ _ _ HS' HS), Heq.
    + intros J HS Hrun. rewrite (ExchangeSucceeds_functional _ _ _ HS' HS), Hrun.
      done.
    + intros J HS Hne. by rewrite (ExchangeSucceeds_functional _ _ _ HS' HS), Hne.
    + intros HF. by destruct (HF J').
  - repeat split; try done; intros J HS; by destruct (HF J).
Qed.

(** ** Asset import *)

Lemma ImportAsset_completes (this : FMCPClient) (Src Dest : string) (c : HttpCompletion) :
  (forall J, ExchangeSucceeds c J ->
     exists Name,
       Delivered (OnProcessRequestComplete
                    (FMCPClient_ImportAsset this Src Dest Report2) c) = [(true, Name)] /\
       (LacksAssetName J -> Name = "") /\
       (forall R A, TryGetObjectField J "result" = Some R ->
                    TryGetObjectField R "asset_info" = Some A ->
                    Name = GetStringField A "name")) /\
  (ExchangeFails c ->
     Delivered (OnProcessRequestComplete
                  (FMCPClient_ImportAsset this Src Dest Report2) c) = [(false, "")]).
Proof.
  simpl. split.
  - intros J HS. rewrite (CompletionLambda_succeeds _ _ _ HS).
    unfold ImportAsset_Lambda, LacksAssetName.
    destruct (TryGetObjectField J "result") as [R|] eqn:ER;
      [destruct (TryGetObjectField R "asset_info") as [A|] eqn:EA|].
    + exists (GetStringField A "name"). repeat split.
      * intros HL. unfold GetStringField, GetField. by rewrite (HL R A).
      * intros R' A' HR HA. congruence.
    + exists "". split; [done|]. split; [done|]. intros R' A' HR HA. congruence.
    + exists "". split; [done|]. split; [done|]. intros R' A' HR HA. congruence.
  - intros HF.
    destruct (CompletionLambda_fails
                (ImportAsset_Lambda (Report2 (A:=bool) (B:=string))) c HF)
      as [Message ->].
    done.
Qed.

(** C9. When the exchange of [ImportAsset] succeeds (200 and a JSON-object
    body) the continuation gets [ok = true], also when the response lacks
    [result.asset_info.name], and then the asset name delivered is the
    empty string; when the exchange fails the continuation gets [false]
    and the empty string. *)
Theorem ImportAsset_outcome (this : FMCPClient) (Src Dest : string) (c : HttpCompletion) :
  let Seen :=
    Delivered (OnProcessRequestComplete
                 (FMCPClient_ImportAsset this Src Dest Report2) c) in
  (forall J, ExchangeSucceeds c J ->
     exists Name, Seen = [(true, Name)] /\ (LacksAssetName J -> Name = "")) /\
  (ExchangeFails c -> Seen = [(false, "")]).
Proof.
  intros Seen. subst Seen.
  destruct (ImportAsset_completes this Src Dest c) as [HS HF]. split; [|done].
  intros J HJ. destruct (HS J HJ) as (Name & ? & ? & _). by exists Name.
Qed.

Lemma PathAppend_slash (Lhs Str : string) :
  FString.LacksTrailingSeparator Lhs = true ->
  FString.StartsWithSlash Str = false ->
  Lhs </> Str = Lhs +:+ "/" +:+ Str.
Proof.
  intros HL HS. unfold FString.PathAppend. rewrite HL, HS.
  by destruct Str.
Qed.

Lemma append_empty_r (s : string) : s +:+ "" = s.
Proof.
  induction s as [|ch s IH]; [done|]. exact (f_equal (String ch) IH).
Qed.

Lemma PathAppend_plain (Lhs Str : string) :
  FString.LacksTrailingSeparator Lhs = false \/ FString.StartsWithSlash Str = true ->
  Lhs </> Str = Lhs +:+ Str.
Proof.
  intros H. unfold FString.PathAppend.
  destruct Str as [|ch Str].
  - destruct H as [-> | H]; [|done]. simpl. by rewrite append_empty_r.
  - destruct H as [-> | ->]; [done|]. simpl. by rewrite andb_false_r.
Qed.

Lemma ImportBlenderModel_Lambda_delivers (Src Dest : string) (b : bool) (Name : string) :
  Delivered (ImportBlenderModel_Lambda Src Dest Report b Name)
  = [if b
     then {| bSuccess := true; AssetPath := Dest </> Name; AssetName := Name;
             ErrorMessage := "" |}
     else {| bSuccess := false; AssetPath := ""; AssetName := "";
             ErrorMessage := "アセットのインポートに失敗しました: " +:+ Src |}].
Proof. by destruct b. Qed.

(** C2, as the code has it. [ImportBlenderModel] reports what the
    underlying [ImportAsset] delivers. When that import succeeds with the
    decoded name [Name], the continuation gets a result with
    [success = true], [assetName = Name] and [assetPath] the destination
    path followed by the name, with one ['/'] put between the two exactly
    when the destination is not empty, does not end in ['/'] or ['\'], and
    the name does not start with ['/']; in every other case the two are
    put together with nothing in between. When the import fails, it gets
    [success = false], a non-empty error message and an empty asset
    path. *)
Theorem ImportBlenderModel_outcome
    (M : UMCPAssetManager) (ModelPath DestinationPath : string) (c : HttpCompletion) :
  exists (Success : bool) (Name : string) (Result : FMCPAssetImportResult),
    Delivered (OnProcessRequestComplete
                 (FMCPClient_ImportAsset (MCPClient M) ModelPath DestinationPath Report2) c)
      = [(Success, Name)] /\
    Delivered (OnProcessRequestComplete
                 (UMCPAssetManager_ImportBlenderModel M ModelPath DestinationPath Report) c)
      = [Result] /\
    (Success = true ->
       bSuccess Result = true /\
       AssetName Result = Name /\
       AssetPath Result = DestinationPath </> Name /\
       (FString.LacksTrailingSeparator DestinationPath = true ->
        FString.StartsWithSlash Name = false ->
        AssetPath Result = DestinationPath +:+ "/" +:+ Name) /\
       (FString.LacksTrailingSeparator DestinationPath = false \/
        FString.StartsWithSlash Name = true ->
        AssetPath Result = DestinationPath +:+ Name)) /\
    (Success = false ->
       bSuccess Result = false /\
       ErrorMessage Result <> "" /\
       AssetPath Result = "").
Proof.
  destruct (Exchange_dichotomy c) as [[J HJ]|HFail].
  - eexists true, _, _. simpl.
    rewrite !(CompletionLambda_succeeds _ _ _ HJ). unfold ImportAsset_Lambda.
    split; [reflexivity|].
    split; [apply ImportBlenderModel_Lambda_delivers|].
    simpl. split; [|done]. intros _. repeat split.
    + apply PathAppend_slash.
    + apply PathAppend_plain.
  - eexists false, _, _. simpl.
    destruct (CompletionLambda_fails
                (ImportAsset_Lambda (Report2 (A:=bool) (B:=string))) c HFail)
      as [Message ->].
    destruct (CompletionLambda_fails
                (ImportAsset_Lambda
                   (ImportBlenderModel_Lambda ModelPath DestinationPath Report))
                c HFail) as [Message' ->].
    unfold ImportAsset_Lambda.
    split; [reflexivity|].
    split; [apply (ImportBlenderModel_Lambda_delivers _ _ false)|].
    simpl. split; [done|]. intros _. repeat split. done.
Qed.

(** ** Request envelopes *)

Lemma append_inv_head (s a b : string) : s +:+ a = s +:+ b -> a = b.
Proof.
  induction s as [|ch s IH]; simpl; [done|].
  intros [= H]. by apply IH.
Qed.

Lemma RequestObj_fields (Command : string) (Params : FJsonObject) :
  RequestObj Command (Some Params)
  = {[ "command" := JsonString Command; "params" := JsonObject Params ]}.
Proof.
  unfold RequestObj, SetObjectField, SetStringField.
  apply insert_insert_ne. done.
Qed.

Lemma ImportAsset_Params_fields (Src Dest : string) :
  ImportAsset_Params Src Dest
  = {[ "path" := JsonString Src; "destination" := JsonString Dest ]}.
Proof.
  unfold ImportAsset_Params, SetStringField.
  apply insert_insert_ne. done.
Qed.

(** C5. Every request an operation sends to [/api/unreal/command] is a
    POST whose body is the serialized object with exactly the fields
    [command] and [params], where [command] is ["import_asset"] with
    params [{path, destination}], or ["set_game_mode"] with params
    [{game_mode}], or ["save_level"] with params [{}]. *)
Theorem unreal_command_envelope {U}
    (M : UMCPAssetManager) (Op : AsyncOperation) (K : Completion Op -> Trace U) :
  URL (Start M Op K) = ServerURL (MCPClient M) +:+ "/api/unreal/command" ->
  Verb (Start M Op K) = "POST" /\
  exists (Command : string) (Params : FJsonObject),
    Content (Start M Op K)
      = Serialize {[ "command" := JsonString Command; "params" := JsonObject Params ]} /\
    (Command = "import_asset" \/ Command = "set_game_mode" \/ Command = "save_level") /\
    match Op with
    | ImportAsset Src Dest | ImportBlenderModel Src Dest =>
        Command = "import_asset" /\
        Params = {[ "path" := JsonString Src; "destination" := JsonString Dest ]}
    | SetGameMode GameModePath =>
        Command = "set_game_mode" /\
        Params = {[ "game_mode" := JsonString GameModePath ]}
    | SaveLevel =>
        Command = "save_level" /\ Params = ∅
    | _ => False
    end.
Proof.
  destruct Op; cbn -[RequestObj ImportAsset_Params SetGameMode_Params]; intros HU;
    try (apply append_inv_head in HU; discriminate HU);
    (split; [done|]).
  - exists "import_asset", (ImportAsset_Params AssetPath0 DestinationPath).
    rewrite RequestObj_fields, ImportAsset_Params_fields. auto.
  - exists "set_game_mode", (SetGameMode_Params GameModePath).
    rewrite RequestObj_fields. auto 6.
  - exists "save_level", ∅.
    rewrite RequestObj_fields. auto 6.
  - exists "import_asset", (ImportAsset_Params ModelPath DestinationPath).
    rewrite RequestObj_fields, ImportAsset_Params_fields. auto.
Qed.

(** ** Configuration *)

Lemma FirstGet_client (Files : FileSystem) :
  FirstGet Files
  = {| MCPClient := (LoadServerURL (U:=unit) Files FMCPClient_ctor).1;
       bInitialized := true |}.
Proof.
  unfold FirstGet, UMCPAssetManager_Get, UMCPAssetManager_Initialize. simpl.
  by destruct (LoadServerURL Files FMCPClient_ctor).
Qed.

Lemma Start_URL {U} (M : UMCPAssetManager) (Op : AsyncOperation)
    (K : Completion Op -> Trace U) :
  URL (Start M Op K) = ServerURL (MCPClient M) +:+ Endpoint Op.
Proof. by destruct Op. Qed.

Lemma LoadServerURL_server {U} (Files : FileSystem) (Client : FMCPClient)
    (JsonContent : string) (J S : FJsonObject) :
  Files !! ConfigFilePath = Some (Some JsonContent) ->
  Deserialize JsonContent = Some J ->
  TryGetObjectField J "server" = Some S ->
  ServerURL (LoadServerURL (U:=U) Files Client).1
  = "http://" +:+ GetStringField S "host" +:+ ":"
    +:+ FString.FromInt (GetIntegerField S "port").
Proof.
  intros HF HD HS. unfold LoadServerURL. by rewrite HF, HD, HS.
Qed.

Lemma Initialize_initialized {U} (Files : FileSystem) (M : UMCPAssetManager) :
  bInitialized M = true ->
  UMCPAssetManager_Initialize (U:=U) Files M = (true, M, []).
Proof. intros H. unfold UMCPAssetManager_Initialize. by rewrite H. Qed.

(** C6. After the manager has been obtained, every request goes to the
    client's server URL followed by the path of the operation. That URL is
    the default [http://127.0.0.1:8080] when the configuration file is
    missing or malformed (it cannot be read, or does not parse as a JSON
    object, or has no [server] object), and it is [http://h:p] when the
    file parses with [server.host] the string [h] and [server.port] a
    number whose [int32] value is [p]. Later calls of [Initialize] leave it
    as it is. *)
Theorem configured_origin (Files : FileSystem) :
  let M := FirstGet Files in
  (forall U (Op : AsyncOperation) (K : Completion Op -> Trace U),
      URL (Start M Op K) = ServerURL (MCPClient M) +:+ Endpoint Op) /\
  (forall Files', (UMCPAssetManager_Initialize (U:=unit) Files' M).1.2 = M) /\
  (Files !! ConfigFilePath = None ->
     ServerURL (MCPClient M) = "http://127.0.0.1:8080") /\
  (Files !! ConfigFilePath = Some None ->
     ServerURL (MCPClient M) = "http://127.0.0.1:8080") /\
  (forall JsonContent,
     Files !! ConfigFilePath = Some (Some JsonContent) ->
     Deserialize JsonContent = None ->
     ServerURL (MCPClient M) = "http://127.0.0.1:8080") /\
  (forall JsonContent J,
     Files !! ConfigFilePath = Some (Some JsonContent) ->
     Deserialize JsonContent = Some J ->
     TryGetObjectField J "server" = None ->
     ServerURL (MCPClient M) = "http://127.0.0.1:8080") /\
  (forall JsonContent J S h d,
     Files !! ConfigFilePath = Some (Some JsonContent) ->
     Deserialize JsonContent = Some J ->
     J !! "server" = Some (JsonObject S) ->
     S !! "host" = Some (JsonString h) ->
     S !! "port" = Some (JsonNumber d) ->
     ServerURL (MCPClient M)
     = "http://" +:+ h +:+ ":" +:+ FString.FromInt (DoubleToInt32 d)).
Proof.
  intros M. subst M. rewrite FirstGet_client.
  split; [intros; apply Start_URL|].
  split; [intros; by rewrite Initialize_initialized|].
  cbn [MCPClient].
  repeat split.
  - intros HF. unfold LoadServerURL. by rewrite HF.
  - intros HF. unfold LoadServerURL. by rewrite HF.
  - intros JsonContent HF HD. unfold LoadServerURL. by rewrite HF, HD.
  - intros JsonContent J HF HD HS. unfold LoadServerURL. by rewrite HF, HD, HS.
  - intros JsonContent J S h d HF HD HS Hh Hd.
    rewrite (LoadServerURL_server Files _ JsonContent J S HF HD).
    + unfold GetStringField, GetIntegerField, GetField. by rewrite Hh, Hd.
    + unfold TryGetObjectField. by rewrite HS.
Qed.

Lemma Initialize_first {U} (Files : FileSystem) (Client : FMCPClient) :
  UMCPAssetManager_Initialize (U:=U) Files {| MCPClient := Client; bInitialized := false |}
  = (true,
     {| MCPClient := (LoadServerURL (U:=U) Files Client).1; bInitialized := true |},
     (LoadServerURL (U:=U) Files Client).2).
Proof.
  unfold UMCPAssetManager_Initialize. cbn [bInitialized MCPClient].
  by destruct (LoadServerURL Files Client).
Qed.

(** C8. [Initialize] is idempotent. The first call (flag not yet set)
    returns [true], probes the configuration file (and loads it when it
    exists) and sets the flag; every later call on the resulting manager
    returns [true], touches no file and nothing else, and leaves the
    manager, hence the client URL, unchanged. *)
Theorem Initialize_idempotent (Files Files' : FileSystem) (Client : FMCPClient) :
  let First :=
    UMCPAssetManager_Initialize (U:=unit) Files
      {| MCPClient := Client; bInitialized := false |} in
  First.1.1 = true /\
  bInitialized First.1.2 = true /\
  head First.2 = Some (FileExists ConfigFilePath) /\
  (is_Some (Files !! ConfigFilePath) -> LoadFileToString ConfigFilePath ∈ First.2) /\
  UMCPAssetManager_Initialize (U:=unit) Files' First.1.2 = (true, First.1.2, []) /\
  (forall M, bInitialized M = true ->
     UMCPAssetManager_Initialize (U:=unit) Files' M = (true, M, [])).
Proof using Type.
  intros First. subst First. rewrite Initialize_first. cbn [fst snd].
  assert (HL : head (LoadServerURL (U:=unit) Files Client).2
               = Some (FileExists ConfigFilePath) /\
               (is_Some (Files !! ConfigFilePath) ->
                LoadFileToString ConfigFilePath ∈ (LoadServerURL (U:=unit) Files Client).2)).
  { unfold LoadServerURL.
    destruct (Files !! ConfigFilePath) as [[JsonContent|]|].
    - destruct (Deserialize JsonContent) as [J|];
        [destruct (TryGetObjectField J "server") as [S|]|];
        (split; [done|]); intros _; simpl;
        apply list_elem_of_further, list_elem_of_here.
    - split; [done|]. intros _. apply list_elem_of_further, list_elem_of_here.
    - split; [done|]. by intros [? ?]. }
  destruct HL as [HL1 HL2].
  split_and!; try done.
  intros M HM. by apply Initialize_initialized.
Qed.

Lemma EndsWithColonZero_append (s : string) : EndsWithColonZero (s +:+ ":0") = true.
Proof.
  induction s as [|ch s IH]; [done|].
  change (String ch s +:+ ":0") with (String ch (s +:+ ":0")).
  cbn [EndsWithColonZero]. rewrite IH. apply orb_true_r.
Qed.

(** C10. When the configuration file parses and has a [server] object, the
    client URL is rebuilt from what [server.host] and [server.port] yield:
    a missing host reads as the empty string and a missing port as 0, so
    with both missing the URL is ["http://:0"]; with either missing the
    URL is no longer the default [http://127.0.0.1:8080]. *)
Theorem server_object_rebuilds_url
    (Files : FileSystem) (JsonContent : string) (J S : FJsonObject) :
  Files !! ConfigFilePath = Some (Some JsonContent) ->
  Deserialize JsonContent = Some J ->
  TryGetObjectField J "server" = Some S ->
  let Url := ServerURL (MCPClient (FirstGet Files)) in
  Url = "http://" +:+ GetStringField S "host" +:+ ":"
        +:+ FString.FromInt (GetIntegerField S "port") /\
  (S !! "host" = None -> GetStringField S "host" = "") /\
  (S !! "port" = None -> GetIntegerField S "port" = 0) /\
  (S !! "host" = None -> S !! "port" = None -> Url = "http://:0") /\
  (S !! "host" = None \/ S !! "port" = None -> Url <> "http://127.0.0.1:8080").
Proof.
  intros HF HD HS Url. subst Url. rewrite FirstGet_client. cbn [MCPClient].
  rewrite (LoadServerURL_server Files _ JsonContent J S HF HD HS).
  unfold GetStringField, GetIntegerField, GetField.
  repeat split.
  - by intros ->.
  - by intros ->.
  - by intros -> ->.
  - intros [->| ->]; simpl.
    + discriminate.
    + intros [= H]. apply (f_equal EndsWithColonZero) in H.
      change ("" +:+ ?h +:+ ":" +:+ FString.FromInt 0) with (h +:+ ":0") in H.
      by rewrite EndsWithColonZero_append in H.
Qed.

(** ** Placement and the game thread *)

(** C7, as the code has it. In an editor build ([WITH_EDITOR] on), a call
    of [PlaceAssetInLevel] from a thread other than the game thread
    returns [true] at once; all it does is queue one task for the game
    thread: the assets and the editor world are as before and nothing is
    logged. The task, when the game thread runs it, is the same call with
    the same arguments made on the game thread, which does the placement
    itself and queues nothing further. In a build without [WITH_EDITOR],
    the call returns [false] on every thread, game thread or not, whatever
    the arguments and the engine: it writes the one failure line, queues
    nothing and leaves the engine as it is. *)
Theorem PlaceAssetInLevel_off_game_thread
    (Id : nat) (AssetPath : string) (Location : FVector) (Rotation : FRotator)
    (Scale : FVector) (ActorName : string) (E : Engine) :
  (exists T : PlaceAssetTask,
     UMCPAssetManager_PlaceAssetInLevel (U:=unit) true (AnyThread Id)
       AssetPath Location Rotation Scale ActorName E
     = (true,
        {| Assets := Assets E; EditorWorld := EditorWorld E;
           TaskQueue := TaskQueue E ++ [T] |},
        []) /\
     Task_Target T = GameThread /\
     forall E0 : Engine,
       RunTask (U:=unit) true T E0
       = (let '(_, E1, Done) :=
            UMCPAssetManager_PlaceAssetInLevel true GameThread
              AssetPath Location Rotation Scale ActorName E0 in
          (E1, Done)) /\
       TaskQueue (RunTask (U:=unit) true T E0).1 = TaskQueue E0) /\
  (forall Current : ENamedThreads,
     UMCPAssetManager_PlaceAssetInLevel (U:=unit) false Current
       AssetPath Location Rotation Scale ActorName E
     = (false, E, [UE_LOG Error ("アセットの配置に失敗しました: " +:+ AssetPath)])).
Proof.
  split; [|intros Current; reflexivity].
  eexists. split; [reflexivity|]. split; [reflexivity|].
  intros E0. split; [reflexivity|].
  unfold RunTask, UMCPAssetManager_PlaceAssetInLevel, SpawnAndSetUp,
    PlaceAssetInLevel_Failed; simpl.
  destruct (Assets E0 !! AssetPath) as [[Name|[Generated|]|]|]; try done;
    destruct (EditorWorld E0) as [World|]; try done;
    by destruct (SpawnActorSucceeds _ _ _ _).
Qed.

End MCP.

Arguments JsonNull {double}.
Arguments JsonString {double} _.
Arguments JsonNumber {double} _.
Arguments JsonBoolean {double} _.
Arguments JsonArray {double} _.
Arguments JsonObject {double} _.
Arguments CheckConnection {double}.
Arguments ExecuteBlenderCommand {double} _ _.
Arguments ImportAsset {double} _ _.
Arguments SetGameMode {double} _.
Arguments SaveLevel {double}.
Arguments ImportBlenderModel {double} _ _.
Arguments CheckServerConnection {double}.

(** * The statements at work on concrete documents *)

(** An instance of the engine services: numbers are integers, and the reader
    knows the few documents used below. *)
Module Fixture.

Abbreviation Json := (gmap string (FJsonValue Z)).

Definition Quote : string := String "034"%char "".
Definition Quoted (s : string) : string := Quote +:+ s +:+ Quote.

Definition StatusText (Status : string) : string :=
  "{" +:+ Quoted "status" +:+ ":" +:+ Quoted Status +:+ "}".

Definition ImportedText : string :=
  "{" +:+ Quoted "result" +:+ ":{" +:+ Quoted "asset_info" +:+ ":{"
      +:+ Quoted "name" +:+ ":" +:+ Quoted "PlayerShip" +:+ "}}}".

Definition NamelessText : string :=
  "{" +:+ Quoted "result" +:+ ":{" +:+ Quoted "asset_info" +:+ ":{}}}".

Definition ConfigText : string :=
  "{" +:+ Quoted "server" +:+ ":{" +:+ Quoted "host" +:+ ":" +:+ Quoted "example.net"
      +:+ "," +:+ Quoted "port" +:+ ":1234}}".

Definition BareServerText : string := "{" +:+ Quoted "server" +:+ ":{}}".

Definition PortOnlyText : string :=
  "{" +:+ Quoted "server" +:+ ":{" +:+ Quoted "port" +:+ ":9000}}".

Definition Documents : list (string * Json) :=
  [ (StatusText "running", {[ "status" := JsonString "running" ]});
    (StatusText "RUNNING", {[ "status" := JsonString "RUNNING" ]});
    (StatusText "degraded", {[ "status" := JsonString "degraded" ]});
    (ImportedText,
     {[ "result" := JsonObject
          {[ "asset_info" := JsonObject {[ "name" := JsonString "PlayerShip" ]} ]} ]});
    (NamelessText,
     {[ "result" := JsonObject {[ "asset_info" := JsonObject ∅ ]} ]});
    (ConfigText,
     {[ "server" := JsonObject
          {[ "host" := JsonString "example.net"; "port" := JsonNumber 1234 ]} ]});
    (BareServerText, {[ "server" := JsonObject ∅ ]});
    (PortOnlyText, {[ "server" := JsonObject {[ "port" := JsonNumber 9000 ]} ]}) ].

Fixpoint Find (Text : string) (Known : list (string * Json)) : option Json :=
  match Known with
  | [] => None
  | (t, J) :: Known' => if String.eqb Text t then Some J else Find Text Known'
  end.

Definition Deserialize (Text : string) : option Json := Find Text Documents.

(** A writer that lists the top-level field names. *)
Definition Serialize (J : Json) : string :=
  "{" +:+ String.concat "," (map Quoted (map fst (map_to_list J))) +:+ "}".

Definition DoubleToInt32 (d : Z) : Z := d.
Definition SanitizeFloat (d : Z) : string := FString.FromInt d.
Definition Atod (s : string) : option Z := None.

Definition ProjectConfigDir : string := "/Project/Config".

Definition Answer (Code : Z) (Text : string) : HttpCompletion :=
  {| Response := Some {| GetResponseCode := Code; GetContentAsString := Text |};
     bConnectedSuccessfully := true |}.

Definition Refused : HttpCompletion :=
  {| Response := None; bConnectedSuccessfully := false |}.

Definition Client : FMCPClient := FMCPClient_ctor.
Definition Manager : UMCPAssetManager := UMCPAssetManager_ctor.

Lemma Answer_succeeds (Text : string) (J : Json) :
  Deserialize Text = Some J ->
  ExchangeSucceeds Z Deserialize (Answer 200 Text) J.
Proof.
  intros H. split; [reflexivity|].
  eexists. split; [reflexivity|]. split; [reflexivity|exact H].
Defined.

Lemma Refused_fails : ExchangeFails Z Deserialize Refused.
Proof. intros J [H _]. discriminate H. Defined.

Definition WithConfig (Text : string) : gmap string (option string) :=
  {[ ConfigFilePath ProjectConfigDir := Some Text ]}.

End Fixture.

Import Fixture.

(** Import happy path: the answer names [PlayerShip], and the result carries
    the name and the path under the destination. *)
Lemma ImportBlenderModel_outcome_witness :
  exists Result : FMCPAssetImportResult,
    Delivered (OnProcessRequestComplete
                 (UMCPAssetManager_ImportBlenderModel Z SanitizeFloat Deserialize Serialize
                    Manager "exports/PlayerShip.fbx" "/Game/BlenderAssets" Report)
                 (Answer 200 ImportedText))
      = [Result] /\
    bSuccess Result = true /\
    AssetName Result = "PlayerShip" /\
    AssetPath Result = "/Game/BlenderAssets/PlayerShip".
Proof.
  destruct (ImportBlenderModel_outcome Z SanitizeFloat Deserialize Serialize
              Manager "exports/PlayerShip.fbx" "/Game/BlenderAssets"
              (Answer 200 ImportedText))
    as (Success & Name & Result & HImport & HResult & HOk & _).
  vm_compute in HImport. injection HImport as <- <-.
  exists Result. split; [exact HResult|].
  destruct (HOk eq_refl) as (Hs & Hn & _ & Hp & _).
  split; [exact Hs|]. split; [exact Hn|].
  rewrite Hp; reflexivity.
Defined.

(** C2 as stated fails: the import succeeds with the name ["PlayerShip"]
    into the empty destination path, and the asset path delivered is the
    name alone, not the two joined by ['/']. *)
Lemma ImportBlenderModel_empty_destination_counterexample :
  let c := Answer 200 ImportedText in
  let Result :=
    {| bSuccess := true; AssetPath := "PlayerShip"; AssetName := "PlayerShip";
       ErrorMessage := "" |} in
  Delivered (OnProcessRequestComplete
               (FMCPClient_ImportAsset Z SanitizeFloat Deserialize Serialize
                  (MCPClient Manager) "exports/PlayerShip.fbx" "" Report2) c)
  = [(true, "PlayerShip")] /\
  Delivered (OnProcessRequestComplete
               (UMCPAssetManager_ImportBlenderModel Z SanitizeFloat Deserialize Serialize
                  Manager "exports/PlayerShip.fbx" "" Report) c)
  = [Result] /\
  AssetPath Result <> "" +:+ "/" +:+ AssetName Result.
Proof.
  split; [reflexivity|]. split; [reflexivity|]. discriminate.
Qed.

(** A server that answers 200 with status ["degraded"]. *)
Lemma CheckConnection_outcome_witness :
  Delivered (OnProcessRequestComplete
               (FMCPClient_CheckConnection Z SanitizeFloat Deserialize Client Report2)
               (Answer 200 (StatusText "degraded")))
  = [(false, "MCPサーバーの状態が異常です: degraded")].
Proof.
  destruct (CheckConnection_outcome Z SanitizeFloat Deserialize Client
              (Answer 200 (StatusText "degraded"))) as (_ & _ & HOther & _).
  rewrite (HOther {[ "status" := JsonString "degraded" ]}).
  - vm_compute. reflexivity.
  - apply Answer_succeeds. vm_compute. reflexivity.
  - vm_compute. reflexivity.
Defined.

(** C3 as stated fails: the server answers 200 with status ["RUNNING"], a
    value other than ["running"], and the continuation gets [true]. *)
Lemma CheckConnection_other_value_counterexample :
  let J : Json := {[ "status" := JsonString "RUNNING" ]} in
  let c := Answer 200 (StatusText "RUNNING") in
  ExchangeSucceeds Z Deserialize c J /\
  GetStringField Z SanitizeFloat J "status" = "RUNNING" /\
  GetStringField Z SanitizeFloat J "status" <> "running" /\
  Delivered (OnProcessRequestComplete
               (FMCPClient_CheckConnection Z SanitizeFloat Deserialize Client Report2) c)
  = [(true, "MCPサーバーに接続しました")] /\
  ~ (exists Message,
       Delivered (OnProcessRequestComplete
                    (FMCPClient_CheckConnection Z SanitizeFloat Deserialize Client Report2) c)
       = [(false, Message)]).
Proof.
  split; [apply Answer_succeeds; reflexivity|].
  split; [reflexivity|].
  split; [discriminate|].
  split; [reflexivity|].
  intros [Message H]. vm_compute in H. discriminate H.
Qed.

(** Setting the game mode [/Game/GM.GM_C]. *)
Lemma unreal_command_envelope_witness :
  URL (Start Z SanitizeFloat Deserialize Serialize Manager (SetGameMode "/Game/GM.GM_C")
         (Report (A:=bool)))
  = "http://127.0.0.1:8080/api/unreal/command" /\
  Verb (Start Z SanitizeFloat Deserialize Serialize Manager (SetGameMode "/Game/GM.GM_C")
          (Report (A:=bool)))
  = "POST" /\
  Content (Start Z SanitizeFloat Deserialize Serialize Manager (SetGameMode "/Game/GM.GM_C")
             (Report (A:=bool)))
  = Serialize {[ "command" := JsonString "set_game_mode";
                 "params" := JsonObject {[ "game_mode" := JsonString "/Game/GM.GM_C" ]} ]}.
Proof.
  split; [reflexivity|].
  destruct (unreal_command_envelope Z SanitizeFloat Deserialize Serialize
              Manager (SetGameMode "/Game/GM.GM_C") (Report (A:=bool)) eq_refl)
    as (HVerb & Command & Params & HContent & _ & -> & ->).
  split; [exact HVerb|exact HContent].
Defined.

(** Config override: with [example.net:1234] configured, the status probe
    goes to [http://example.net:1234/status]. *)
Lemma configured_origin_witness :
  URL (Start Z SanitizeFloat Deserialize Serialize
         (FirstGet Z DoubleToInt32 SanitizeFloat Atod Deserialize ProjectConfigDir
            (WithConfig ConfigText))
         CheckServerConnection (Report (A:=bool * string)))
  = "http://example.net:1234/status" /\
  ServerURL (MCPClient (FirstGet Z DoubleToInt32 SanitizeFloat Atod Deserialize
                          ProjectConfigDir ∅))
  = "http://127.0.0.1:8080".
Proof.
  split.
  - destruct (configured_origin Z DoubleToInt32 SanitizeFloat Atod Deserialize Serialize
                ProjectConfigDir (WithConfig ConfigText))
      as (HUrl & _ & _ & _ & _ & _ & HServer).
    rewrite HUrl.
    rewrite (HServer ConfigText
               {[ "server" := JsonObject
                    {[ "host" := JsonString "example.net"; "port" := JsonNumber 1234 ]} ]}
               {[ "host" := JsonString "example.net"; "port" := JsonNumber 1234 ]}
               "example.net" 1234);
      reflexivity.
  - destruct (configured_origin Z DoubleToInt32 SanitizeFloat Atod Deserialize Serialize
                ProjectConfigDir ∅) as (_ & _ & HMissing & _).
    apply HMissing. reflexivity.
Defined.

(** Two calls of [Initialize] in a row, the configuration file present. *)
Lemma Initialize_idempotent_witness :
  let First :=
    UMCPAssetManager_Initialize Z DoubleToInt32 SanitizeFloat Atod Deserialize
      ProjectConfigDir (U:=unit) (WithConfig ConfigText) Manager in
  LoadFileToString (ConfigFilePath ProjectConfigDir) ∈ First.2 /\
  ServerURL (MCPClient First.1.2) = "http://example.net:1234" /\
  UMCPAssetManager_Initialize Z DoubleToInt32 SanitizeFloat Atod Deserialize
    ProjectConfigDir (U:=unit) (WithConfig BareServerText) First.1.2
  = (true, First.1.2, []).
Proof.
  destruct (Initialize_idempotent Z DoubleToInt32 SanitizeFloat Atod Deserialize
              ProjectConfigDir (WithConfig ConfigText) (WithConfig BareServerText)
              FMCPClient_ctor) as (_ & _ & _ & HLoad & HAgain & _).
  split; [|split].
  - apply HLoad. eexists. reflexivity.
  - reflexivity.
  - exact HAgain.
Defined.

(** An answer without [result.asset_info.name], and a refused connection. *)
Lemma ImportAsset_outcome_witness :
  Delivered (OnProcessRequestComplete
               (FMCPClient_ImportAsset Z SanitizeFloat Deserialize Serialize Client
                  "exports/PlayerShip.fbx" "/Game/BlenderAssets" Report2)
               (Answer 200 NamelessText))
  = [(true, "")] /\
  Delivered (OnProcessRequestComplete
               (FMCPClient_ImportAsset Z SanitizeFloat Deserialize Serialize Client
                  "exports/PlayerShip.fbx" "/Game/BlenderAssets" Report2)
               Refused)
  = [(false, "")].
Proof.
  split.
  - destruct (ImportAsset_outcome Z SanitizeFloat Deserialize Serialize Client
                "exports/PlayerShip.fbx" "/Game/BlenderAssets" (Answer 200 NamelessText))
      as [HOk _].
    destruct (HOk {[ "result" := JsonObject {[ "asset_info" := JsonObject ∅ ]} ]})
      as (Name & HSeen & HEmpty).
    + apply Answer_succeeds. reflexivity.
    + rewrite HSeen. rewrite HEmpty; [reflexivity|].
      intros R A HR HA. vm_compute in HR. injection HR as <-.
      vm_compute in HA. injection HA as <-. reflexivity.
  - destruct (ImportAsset_outcome Z SanitizeFloat Deserialize Serialize Client
                "exports/PlayerShip.fbx" "/Game/BlenderAssets" Refused)
      as [_ HFail].
    apply HFail, Refused_fails.
Defined.

(** A [server] object with neither [host] nor [port], and one with a port
    only. *)
Lemma server_object_rebuilds_url_witness :
  ServerURL (MCPClient (FirstGet Z DoubleToInt32 SanitizeFloat Atod Deserialize
                          ProjectConfigDir (WithConfig BareServerText)))
  = "http://:0" /\
  ServerURL (MCPClient (FirstGet Z DoubleToInt32 SanitizeFloat Atod Deserialize
                          ProjectConfigDir (WithConfig PortOnlyText)))
  = "http://:9000".
Proof.
  split.
  - destruct (server_object_rebuilds_url Z DoubleToInt32 SanitizeFloat Atod Deserialize
                ProjectConfigDir (WithConfig BareServerText) BareServerText
                {[ "server" := JsonObject ∅ ]} ∅ eq_refl eq_refl eq_refl)
      as (_ & _ & _ & HBoth & _).
    apply HBoth; reflexivity.
  - destruct (server_object_rebuilds_url Z DoubleToInt32 SanitizeFloat Atod Deserialize
                ProjectConfigDir (WithConfig PortOnlyText) PortOnlyText
                {[ "server" := JsonObject {[ "port" := JsonNumber 9000 ]} ]}
                {[ "port" := JsonNumber 9000 ]} eq_refl eq_refl eq_refl)
      as (HUrl & _).
    rewrite HUrl. vm_compute. reflexivity.
Defined.

(** C7 as stated fails when the build switch is off: the call from a worker
    thread returns [false], logs the failure and queues nothing. *)
Lemma PlaceAssetInLevel_without_editor_counterexample :
  let E : Engine unit unit :=
    {| Assets := {[ "/Game/X" := UStaticMesh "X" ]};
       EditorWorld := Some [];
       TaskQueue := [] |} in
  UMCPAssetManager_PlaceAssetInLevel unit unit (fun _ _ _ _ => true) (U:=unit)
    false (AnyThread 1) "/Game/X" tt tt tt "" E
  = (false, E, [UE_LOG Error "アセットの配置に失敗しました: /Game/X"]).
Proof. reflexivity. Qed.


(** * Further properties of the bridge *)

(** The static [UMCPAssetManager::Instance] after a call of [Get]: the
    instance returned. *)
Definition UMCPAssetManager_Get_Instance (this : UMCPAssetManager)
    : option UMCPAssetManager := Some this.

(** The class [PlaceAssetInLevel] spawns for an asset: a mesh actor for a
    static mesh, the generated class for a blueprint that has one. *)
Definition SpawnClassOf (Asset : UObject) : option ActorClass :=
  match Asset with
  | UStaticMesh _ => Some AStaticMeshActor_StaticClass
  | UBlueprint (Some Generated) => Some (BPClass Generated)
  | UBlueprint None | UOther => None
  end.

(** The mesh bound to the spawned actor. *)
Definition MeshOf (Asset : UObject) : option UObject :=
  match Asset with
  | UStaticMesh _ => Some Asset
  | _ => None
  end.

Ltac unfold_json :=
  unfold GetStringField, GetIntegerField, GetField, TryGetObjectField,
    AsString, AsInteger.

Ltac unfold_request :=
  unfold RequestObj, SetObjectField, SetStringField.

Ltac unfold_Get := unfold UMCPAssetManager_Get.

Ltac unfold_place :=
  unfold UMCPAssetManager_PlaceAssetInLevel, SpawnAndSetUp, PlaceAssetInLevel_Failed,
    SetLabel.

Ltac unfold_manager :=
  unfold UMCPAssetManager_Get, UMCPAssetManager_Initialize, UMCPAssetManager_ctor,
    LoadServerURL, FMCPClient_SetServerURL.

Section Bridge.

Variable double : Type.
Variable DoubleToInt32 : double -> Z.
Variable SanitizeFloat : double -> string.
Variable Atod : string -> option double.
Variable Deserialize : string -> option (gmap string (FJsonValue double)).
Variable Serialize : gmap string (FJsonValue double) -> string.
Variable ProjectConfigDir : string.
Variable FVector : Type.
Variable FRotator : Type.
Variable SpawnActorSucceeds :
  list (AActor FVector FRotator) -> ActorClass -> FVector -> FRotator -> bool.

Local Abbreviation FJsonObject := (gmap string (FJsonValue double)).
Local Abbreviation FileSystem := (gmap string (option string)).
Local Abbreviation GetStringField := (GetStringField double SanitizeFloat).
Local Abbreviation TryGetObjectField := (TryGetObjectField double).
Local Abbreviation ExchangeSucceeds := (ExchangeSucceeds double Deserialize).
Local Abbreviation ExchangeFails := (ExchangeFails double Deserialize).
Local Abbreviation RequestObj := (RequestObj double).
Local Abbreviation FMCPClient_SendPostRequest :=
  (FMCPClient_SendPostRequest double Deserialize).
Local Abbreviation FMCPClient_SendGetRequest :=
  (FMCPClient_SendGetRequest double Deserialize).
Local Abbreviation FMCPClient_CheckConnection :=
  (FMCPClient_CheckConnection double SanitizeFloat Deserialize).
Local Abbreviation FMCPClient_ExecuteBlenderCommand :=
  (FMCPClient_ExecuteBlenderCommand double Deserialize Serialize).
Local Abbreviation FMCPClient_ImportAsset :=
  (FMCPClient_ImportAsset double SanitizeFloat Deserialize Serialize).
Local Abbreviation UMCPAssetManager_ImportBlenderModel :=
  (UMCPAssetManager_ImportBlenderModel double SanitizeFloat Deserialize Serialize).
Local Abbreviation UMCPAssetManager_SetGameMode U :=
  (@UMCPAssetManager_SetGameMode double Deserialize Serialize U).
Local Abbreviation UMCPAssetManager_Initialize U :=
  (@UMCPAssetManager_Initialize double DoubleToInt32 SanitizeFloat Atod Deserialize
     ProjectConfigDir U).
Local Abbreviation UMCPAssetManager_Get U :=
  (@UMCPAssetManager_Get double DoubleToInt32 SanitizeFloat Atod Deserialize
     ProjectConfigDir U).
Local Abbreviation LoadServerURL U :=
  (@LoadServerURL double DoubleToInt32 SanitizeFloat Atod Deserialize ProjectConfigDir U).
Local Abbreviation ConfigFilePath := (ConfigFilePath ProjectConfigDir).
Local Abbreviation UMCPAssetManager_PlaceAssetInLevel U :=
  (@UMCPAssetManager_PlaceAssetInLevel FVector FRotator SpawnActorSucceeds U).
Local Abbreviation Engine := (Engine FVector FRotator).
Local Abbreviation Assets := (Assets FVector FRotator).
Local Abbreviation EditorWorld := (EditorWorld FVector FRotator).
Local Abbreviation TaskQueue := (TaskQueue FVector FRotator).

(** Successive calls of [Get], each seeing its own state of the files: what
    each call returns and does. *)
Fixpoint GetRepeatedly (Instance : option UMCPAssetManager) (Calls : list FileSystem)
    : list (UMCPAssetManager * Trace unit) :=
  match Calls with
  | [] => []
  | Files :: Later =>
      let Returned := UMCPAssetManager_Get unit Files Instance in
      Returned :: GetRepeatedly (UMCPAssetManager_Get_Instance Returned.1) Later
  end.

(** X1. A failed exchange writes exactly one error line before it calls
    back with [(false, null)], and the line names the cause: no connection
    (or no valid response), a status other than 200 (with the code; the
    body is not looked at), or a body that does not parse (with the body).
    A successful exchange writes nothing. *)
Theorem Transport_failure_causes (Url JsonPayload : string) (c : HttpCompletion) :
  let Seen :=
    OnProcessRequestComplete (FMCPClient_SendPostRequest Url JsonPayload Report2) c in
  OnProcessRequestComplete (FMCPClient_SendGetRequest Url Report2) c = Seen /\
  (bConnectedSuccessfully c = false \/ Response c = None ->
     Seen = [UE_LOG Error "HTTPリクエストの接続に失敗しました"; Call (false, None)]) /\
  (forall R, bConnectedSuccessfully c = true -> Response c = Some R ->
     GetResponseCode R <> 200 ->
     Seen = [UE_LOG Error ("HTTPリクエストが失敗しました: "
                           +:+ FString.FromInt (GetResponseCode R));
             Call (false, None)]) /\
  (forall R, bConnectedSuccessfully c = true -> Response c = Some R ->
     GetResponseCode R = 200 -> Deserialize (GetContentAsString R) = None ->
     Seen = [UE_LOG Error ("JSONのパースに失敗しました: " +:+ GetContentAsString R);
             Call (false, None)]) /\
  (forall R J, bConnectedSuccessfully c = true -> Response c = Some R ->
     GetResponseCode R = 200 -> Deserialize (GetContentAsString R) = Some J ->
     Seen = [Call (true, Some J)]).
Proof using Type.
  intros Seen. subst Seen. simpl. unfold CompletionLambda, Completed.
  split; [done|]. split_and!.
  - intros [-> | ->]; [done|]. by destruct (bConnectedSuccessfully c).
  - intros R -> -> Hcode.
    destruct (Z.eqb_spec (GetResponseCode R) EHttpResponseCodes.Ok); done.
  - intros R -> -> -> ->. done.
  - intros R J -> -> -> ->. done.
Qed.

(** A value that [AsString] cannot turn into text. *)
Definition Textless (v : FJsonValue double) : Prop :=
  match v with
  | JsonNull | JsonArray _ | JsonObject _ => True
  | _ => False
  end.

(** X2. A 200 answer whose JSON object has no [status] field, or has one
    that is null, an array or an object, makes [CheckConnection] report
    failure, with the abnormal-state message ending in an empty value. *)
Theorem CheckConnection_status_absent
    (this : FMCPClient) (c : HttpCompletion) (J : FJsonObject) :
  ExchangeSucceeds c J ->
  (J !! "status" = None \/ exists v, J !! "status" = Some v /\ Textless v) ->
  Delivered (OnProcessRequestComplete (FMCPClient_CheckConnection this Report2) c)
  = [(false, "MCPサーバーの状態が異常です: ")].
Proof using Type.
  intros HS HJ. simpl.
  rewrite (CompletionLambda_succeeds _ _ _ _ _ HS).
  unfold CheckConnection_Lambda. unfold_json.
  destruct HJ as [-> | (v & -> & Hv)]; [done|].
  by destruct v.
Qed.

(** X3. When the exchange of [ImportAsset] succeeds but the answer has no
    object at [result], or no object at [result.asset_info], the
    continuation still gets [ok = true], with the empty name. When
    [result.asset_info.name] is a number, the name delivered is the text of
    the number. *)
Theorem ImportAsset_without_asset_info
    (this : FMCPClient) (Src Dest : string) (c : HttpCompletion) (J : FJsonObject) :
  ExchangeSucceeds c J ->
  let Seen :=
    Delivered (OnProcessRequestComplete (FMCPClient_ImportAsset this Src Dest Report2) c) in
  (TryGetObjectField J "result" = None -> Seen = [(true, "")]) /\
  (forall R, TryGetObjectField J "result" = Some R ->
             TryGetObjectField R "asset_info" = None -> Seen = [(true, "")]) /\
  (forall R A d, TryGetObjectField J "result" = Some R ->
                 TryGetObjectField R "asset_info" = Some A ->
                 A !! "name" = Some (JsonNumber d) ->
                 Seen = [(true, SanitizeFloat d)]).
Proof using Type.
  intros HS Seen. subst Seen. simpl.
  rewrite (CompletionLambda_succeeds _ _ _ _ _ HS).
  unfold ImportAsset_Lambda. split_and!.
  - by intros ->.
  - by intros R -> ->.
  - intros R A d -> -> HA. unfold_json. by rewrite HA.
Qed.

(** X4. What [ImportBlenderModel] does when its request completes. After a
    successful exchange it queries the asset registry once, recursively
    under the destination path, writes one log line and calls back; after a
    failed exchange it never queries the registry: it writes the transport's
    error line and then its own, whose text is the error message it
    delivers. *)
Theorem ImportBlenderModel_completion
    (M : UMCPAssetManager) (ModelPath DestinationPath : string) (c : HttpCompletion) :
  let Done :=
    OnProcessRequestComplete
      (UMCPAssetManager_ImportBlenderModel M ModelPath DestinationPath Report) c in
  (forall J, ExchangeSucceeds c J ->
     exists Result Line,
       Done = [GetAssets DestinationPath true; UE_LOG Log Line; Call Result] /\
       bSuccess Result = true) /\
  (ExchangeFails c ->
     exists Result Line,
       Done = [UE_LOG Error Line; UE_LOG Error (ErrorMessage Result); Call Result] /\
       bSuccess Result = false /\
       ErrorMessage Result = "アセットのインポートに失敗しました: " +:+ ModelPath).
Proof using Type.
  intros Done. subst Done. simpl. split.
  - intros J HS. rewrite (CompletionLambda_succeeds _ _ _ _ _ HS).
    unfold ImportAsset_Lambda, ImportBlenderModel_Lambda. simpl.
    eexists _, _. split; reflexivity.
  - intros HF.
    destruct (CompletionLambda_fails double Deserialize
                (ImportAsset_Lambda double SanitizeFloat
                   (ImportBlenderModel_Lambda ModelPath DestinationPath Report))
                c HF) as [Line ->].
    unfold ImportAsset_Lambda, ImportBlenderModel_Lambda. simpl.
    exists (Set_ErrorMessage ("アセットのインポートに失敗しました: " +:+ ModelPath)
              (Set_bSuccess false FMCPAssetImportResult_ctor)), Line.
    split; [reflexivity|]. split; reflexivity.
Qed.

(** X5. [ExecuteBlenderCommand] posts to [/api/blender/command], as JSON,
    the serialized object with exactly the fields [command] and [params]:
    reading [command] back gives the command, reading [params] back as an
    object gives the parameters, and parameters passed as a null pointer
    are sent as a JSON null. On a successful exchange the callback gets
    [true] and the parsed answer, untouched. *)
Theorem ExecuteBlenderCommand_envelope {U}
    (this : FMCPClient) (Command : string) (Params : option FJsonObject)
    (K : bool -> option FJsonObject -> Trace U) :
  let r := FMCPClient_ExecuteBlenderCommand this Command Params K in
  URL r = ServerURL this +:+ "/api/blender/command" /\
  Verb r = "POST" /\
  Headers r = [("Content-Type", "application/json")] /\
  (exists Obj : FJsonObject,
     Content r = Serialize Obj /\
     dom Obj = ({[ "command"; "params" ]} : gset string) /\
     GetStringField Obj "command" = Command /\
     TryGetObjectField Obj "params" = Params /\
     (Params = None -> Obj !! "params" = Some JsonNull)) /\
  (forall c J, ExchangeSucceeds c J -> OnProcessRequestComplete r c = K true (Some J)).
Proof using Type.
  intros r. subst r. split; [done|]. split; [done|]. split; [done|]. split.
  - exists (RequestObj Command Params). split; [done|].
    unfold_request. unfold_json.
    destruct Params as [P|]; rewrite !dom_insert_L, dom_empty_L;
      (split; [set_solver|]); done.
  - intros c J HS. simpl. apply CompletionLambda_succeeds, HS.
Qed.

(** X6. [UMCPAssetManager::SetGameMode] refuses a null class reference:
    [false], an error line, no request. For a valid class it returns [true]
    at once and posts [set_game_mode] with the path name of the class; the
    server's answer only decides which line is logged when the request
    completes. *)
Theorem SetGameMode_fire_and_forget {U} (this : UMCPAssetManager) :
  UMCPAssetManager_SetGameMode U this None
  = (false, None, [UE_LOG Error "ゲームモードクラスが無効です"]) /\
  forall Cls : UClass, exists r : HttpRequest U,
    UMCPAssetManager_SetGameMode U this (Some Cls) = (true, Some r, []) /\
    URL r = ServerURL (MCPClient this) +:+ "/api/unreal/command" /\
    Content r = Serialize {[ "command" := JsonString "set_game_mode";
                             "params" := JsonObject
                               {[ "game_mode" := JsonString (GetPathName Cls) ]} ]} /\
    forall c : HttpCompletion,
      (forall J, ExchangeSucceeds c J ->
         OnProcessRequestComplete r c = [UE_LOG Log "ゲームモードを設定しました"]) /\
      (ExchangeFails c ->
         exists Line,
           OnProcessRequestComplete r c
           = [UE_LOG Error Line; UE_LOG Error "ゲームモードの設定に失敗しました"]).
Proof using Type.
  split; [done|]. intros Cls. eexists. split; [reflexivity|].
  split; [done|]. split.
  - simpl. f_equal.
  - intros c. simpl. split.
    + intros J HS. by rewrite (CompletionLambda_succeeds _ _ _ _ _ HS).
    + intros HF.
      match goal with
      | |- context [CompletionLambda _ _ ?k c] =>
          destruct (CompletionLambda_fails double Deserialize k c HF) as [Line ->]
      end.
      by exists Line.
Qed.

Lemma GetRepeatedly_existing (M : UMCPAssetManager) (Calls : list FileSystem) :
  GetRepeatedly (Some M) Calls = map (fun _ => (M, [])) Calls.
Proof using Type.
  induction Calls as [|Files Later IH]; [done|].
  simpl. unfold UMCPAssetManager_Get_Instance. by rewrite IH.
Qed.

(** X7. [Get] is a singleton accessor. The first call builds the manager
    and initializes it from the files it sees; every later call returns
    that same manager and does nothing else, whatever the configuration
    file has become in the meantime. The manager handed out is always
    initialized. *)
Theorem Get_is_a_singleton (Files : FileSystem) (Later : list FileSystem) :
  let First := UMCPAssetManager_Get unit Files None in
  GetRepeatedly None (Files :: Later) = First :: map (fun _ => (First.1, [])) Later /\
  bInitialized First.1 = true /\
  First.2 = (LoadServerURL unit Files FMCPClient_ctor).2.
Proof using Type.
  intros First. subst First. cbn [GetRepeatedly].
  unfold UMCPAssetManager_Get_Instance. rewrite GetRepeatedly_existing.
  split; [done|].
  change UMCPAssetManager_ctor
    with {| MCPClient := FMCPClient_ctor; bInitialized := false |}.
  unfold_Get. change UMCPAssetManager_ctor
    with {| MCPClient := FMCPClient_ctor; bInitialized := false |}.
  rewrite (Initialize_first double DoubleToInt32 SanitizeFloat Atod Deserialize
             ProjectConfigDir). done.
Qed.

(** X8. In an editor build, on the game thread, [PlaceAssetInLevel] returns
    [true] exactly when the asset loads and is a static mesh or a blueprint
    with a generated class, there is an editor world, and the world agrees
    to spawn the actor. *)
Theorem PlaceAssetInLevel_succeeds_iff
    (AssetPath : string) (Location : FVector) (Rotation : FRotator) (Scale : FVector)
    (ActorName : string) (E : Engine) :
  (UMCPAssetManager_PlaceAssetInLevel unit true GameThread
     AssetPath Location Rotation Scale ActorName E).1.1 = true
  <-> exists Asset Cls World,
        Assets E !! AssetPath = Some Asset /\
        SpawnClassOf Asset = Some Cls /\
        EditorWorld E = Some World /\
        SpawnActorSucceeds World Cls Location Rotation = true.
Proof using Type.
  unfold_place. simpl.
  destruct (Assets E !! AssetPath) as [[Name|[Generated|]|]|] eqn:HA;
    try destruct (EditorWorld E) as [World|] eqn:HW;
    try destruct (SpawnActorSucceeds World _ Location Rotation) eqn:HS;
    simpl; split; try done;
    try (intros (Asset & Cls & World' & ? & ? & ? & ?); simplify_eq/=; congruence).
  - intros _. by exists (UStaticMesh Name), AStaticMeshActor_StaticClass, World.
  - intros _. by exists (UBlueprint (Some Generated)), (BPClass Generated), World.
Qed.

(** X9. What a call of [PlaceAssetInLevel] on the game thread leaves behind
    (editor build). The loadable assets and the task queue are never
    touched. A call that returns [false] changes nothing and writes one
    error line. A call that returns [true] adds exactly one actor to the
    editor world, after the ones already there: of the class of the asset,
    at the given location and rotation, with the mesh bound when the asset
    is one, the given scale, and the given name as its label unless the
    name is empty; it writes one log line. *)
Theorem PlaceAssetInLevel_effect
    (AssetPath : string) (Location : FVector) (Rotation : FRotator) (Scale : FVector)
    (ActorName : string) (E : Engine) :
  let '(Placed, E', Done) :=
    UMCPAssetManager_PlaceAssetInLevel unit true GameThread
      AssetPath Location Rotation Scale ActorName E in
  Assets E' = Assets E /\
  TaskQueue E' = TaskQueue E /\
  (Placed = false -> E' = E /\ exists Line, Done = [UE_LOG Error Line]) /\
  (Placed = true ->
     exists Asset Cls World Line,
       Assets E !! AssetPath = Some Asset /\
       SpawnClassOf Asset = Some Cls /\
       EditorWorld E = Some World /\
       EditorWorld E'
       = Some (World ++ [{| Class := Cls;
                            ActorLocation := Location;
                            ActorRotation := Rotation;
                            StaticMesh := MeshOf Asset;
                            ActorScale3D := Some Scale;
                            ActorLabel := if FString.IsEmpty ActorName then None
                                          else Some ActorName |}]) /\
       Done = [UE_LOG Log Line]).
Proof using Type.
  unfold_place. simpl.
  destruct (Assets E !! AssetPath) as [[Name|[Generated|]|]|] eqn:HA;
    try destruct (EditorWorld E) as [World|] eqn:HW;
    try destruct (SpawnActorSucceeds World _ Location Rotation) eqn:HS;
    simpl; split_and!; try done;
    try (intros _; split; [done|by eexists]); intros _.
  - by exists (UStaticMesh Name), AStaticMeshActor_StaticClass, World; eexists.
  - by exists (UBlueprint (Some Generated)), (BPClass Generated), World; eexists.
Qed.

(** X10. The only file [Initialize] ever looks at is the configuration
    file: it probes and loads no other path, and loads it only when it is
    there. And it never changes the client URL silently: when the URL after
    the call differs from the one before, the new URL has been logged. *)
Theorem Initialize_file_access (Files : FileSystem) (this : UMCPAssetManager) :
  let '(_, After, Done) := UMCPAssetManager_Initialize unit Files this in
  (forall e, e ∈ Done -> ReadsFiles e = true ->
     e = FileExists ConfigFilePath \/ e = LoadFileToString ConfigFilePath) /\
  (LoadFileToString ConfigFilePath ∈ Done -> is_Some (Files !! ConfigFilePath)) /\
  (ServerURL (MCPClient After) <> ServerURL (MCPClient this) ->
     UE_LOG Log ("MCPサーバーURLを設定しました: " +:+ ServerURL (MCPClient After)) ∈ Done).
Proof using Type.
  unfold_manager.
  destruct (bInitialized this).
  { split_and!; [by intros e ?%elem_of_nil| by intros ?%elem_of_nil|done]. }
  destruct (Files !! ConfigFilePath) as [[JsonContent|]|] eqn:HF;
    [destruct (Deserialize JsonContent) as [J|];
     [destruct (TryGetObjectField J "server") as [S|]|]|..]; simpl.
  all: split_and!.
  all: try (intros e He Hr;
            repeat (apply elem_of_cons in He as [->|He]; [by auto|]);
            by apply elem_of_nil in He).
  all: try (intros _; by eexists).
  all: try done.
  - intros _. do 2 apply list_elem_of_further. apply list_elem_of_here.
  - intros HL. repeat (apply elem_of_cons in HL as [HL|HL]; [done|]).
    by apply elem_of_nil in HL.
Qed.

End Bridge.

(** * The game layer: [MCPGameMode.cpp], [MCPGameplayComponent.cpp] and the
      shooter's game mode *)

(** The verbosities the game layer logs at. *)
Module LogTemp.
Inductive Verbosity : Type := Error | Warning | Display | Log.
End LogTemp.

(** What the code of the game layer does, besides what the bridge does for
    it. In a trace it is recorded under [Call]: the lambdas the game layer
    hands to the asset manager are the callbacks that get invoked, and these
    are the statements of their bodies. [D] is the type of the arguments of
    the delegate at hand. *)
Inductive GameEffect (D : Type) : Type :=
| Logged (V : LogTemp.Verbosity) (Message : string)
| Set_bConnectedToServer (Value : bool)
| Clear_bAllSucceeded
| Execute (Args : D).

Arguments Logged {D} _ _.
Arguments Set_bConnectedToServer {D} _.
Arguments Clear_bAllSucceeded {D}.
Arguments Execute {D} _.

Definition GameTrace (D : Type) : Type := Trace (GameEffect D).

Definition UE_LOG_LogTemp {D} (V : LogTemp.Verbosity) (Message : string) : GameTrace D :=
  [Call (Logged V Message)].

(** [if (OnComplete.IsBound()) OnComplete.Execute(Args);] *)
Definition ExecuteIfBound {D} (IsBound : bool) (Args : D) : GameTrace D :=
  if IsBound then [Call (Execute Args)] else [].

(** The arguments the delegate was executed with along a trace, in order. *)
Fixpoint Executed {D} (t : GameTrace D) : list D :=
  match t with
  | [] => []
  | Call (Execute Args) :: t' => Args :: Executed t'
  | _ :: t' => Executed t'
  end.

(** The lines the game layer logged along a trace. *)
Fixpoint GameLog {D} (t : GameTrace D) : list (LogTemp.Verbosity * string) :=
  match t with
  | [] => []
  | Call (Logged V Message) :: t' => (V, Message) :: GameLog t'
  | _ :: t' => GameLog t'
  end.

Record AMCPGameMode : Type := {
  AssetManager : option UMCPAssetManager;
  bConnectedToServer : bool
}.

(** The assignments of a trace, carried out on the game mode. *)
Definition Assign {D} (this : AMCPGameMode) (e : Event (GameEffect D)) : AMCPGameMode :=
  match e with
  | Call (Set_bConnectedToServer Value) =>
      {| AssetManager := AssetManager this; bConnectedToServer := Value |}
  | _ => this
  end.

Definition AfterwardsOf {D} (t : GameTrace D) (this : AMCPGameMode) : AMCPGameMode :=
  fold_left Assign t this.

Section Game.

Variable double : Type.
Variable DoubleToInt32 : double -> Z.
Variable SanitizeFloat : double -> string.
Variable Atod : string -> option double.
Variable Deserialize : string -> option (gmap string (FJsonValue double)).
Variable Serialize : gmap string (FJsonValue double) -> string.
Variable ProjectConfigDir : string.

Local Abbreviation FJsonObject := (gmap string (FJsonValue double)).
Local Abbreviation FileSystem := (gmap string (option string)).
Local Abbreviation GetStringField := (GetStringField double SanitizeFloat).
Local Abbreviation ExchangeSucceeds := (ExchangeSucceeds double Deserialize).
Local Abbreviation ExchangeFails := (ExchangeFails double Deserialize).
Local Abbreviation UMCPAssetManager_CheckServerConnection :=
  (UMCPAssetManager_CheckServerConnection double SanitizeFloat Deserialize).
Local Abbreviation UMCPAssetManager_ImportBlenderModel :=
  (UMCPAssetManager_ImportBlenderModel double SanitizeFloat Deserialize Serialize).
Local Abbreviation UMCPAssetManager_Get U :=
  (@UMCPAssetManager_Get double DoubleToInt32 SanitizeFloat Atod Deserialize
     ProjectConfigDir U).

(** ** [AMCPGameMode] *)

(** [AMCPGameMode::AMCPGameMode()], over the static instance of the asset
    manager. *)
Definition AMCPGameMode_ctor (Files : FileSystem) (Instance : option UMCPAssetManager)
    : AMCPGameMode * Trace unit :=
  let '(Manager, Done) := UMCPAssetManager_Get unit Files Instance in
  ({| AssetManager := Some Manager; bConnectedToServer := false |}, Done).

(** The lambda [StartPlay] hands to [CheckServerConnection]. *)
Definition StartPlay_Lambda {D} (bSuccess : bool) (Message : string) : GameTrace D :=
  [Call (Set_bConnectedToServer bSuccess)]
  ++ (if bSuccess
      then UE_LOG_LogTemp LogTemp.Log ("MCPサーバーに接続しました: " +:+ Message)
      else UE_LOG_LogTemp LogTemp.Warning ("MCPサーバーに接続できませんでした: " +:+ Message)).

Definition AMCPGameMode_StartPlay {D} (this : AMCPGameMode)
    : option (HttpRequest (GameEffect D)) * GameTrace D :=
  match AssetManager this with
  | Some Manager =>
      (Some (UMCPAssetManager_CheckServerConnection Manager StartPlay_Lambda), [])
  | None =>
      (None, UE_LOG_LogTemp LogTemp.Error "MCPアセットマネージャーが初期化されていません")
  end.

Definition AMCPGameMode_ImportBlenderAsset (this : AMCPGameMode)
    (AssetPath DestinationPath : string) (OnComplete_IsBound : bool)
    : option (HttpRequest (GameEffect bool)) * GameTrace bool :=
  match AssetManager this with
  | None =>
      (None,
       UE_LOG_LogTemp LogTemp.Error "MCPアセットマネージャーが初期化されていません"
       ++ ExecuteIfBound OnComplete_IsBound false)
  | Some Manager =>
      if negb (bConnectedToServer this) then
        (None,
         UE_LOG_LogTemp LogTemp.Error "MCPサーバーに接続されていません"
         ++ ExecuteIfBound OnComplete_IsBound false)
      else
        (Some (UMCPAssetManager_ImportBlenderModel Manager AssetPath DestinationPath
                 (fun Result => ExecuteIfBound OnComplete_IsBound (bSuccess Result))),
         [])
  end.

(** [Found] is what [IFileManager::FindFiles] puts into [Files]. The local
    [bAllSucceeded] is [true] when the delegate is executed at the end of
    the call: the lambdas that clear it run when the requests complete. *)
Definition AMCPGameMode_ImportAllAssetsInDirectory (this : AMCPGameMode)
    (Found : list string) (DirectoryPath DestinationPath : string)
    (OnComplete_IsBound : bool)
    : list (HttpRequest (GameEffect bool)) * GameTrace bool :=
  match AssetManager this with
  | None =>
      ([],
       UE_LOG_LogTemp LogTemp.Error "MCPアセットマネージャーが初期化されていません"
       ++ ExecuteIfBound OnComplete_IsBound false)
  | Some Manager =>
      if negb (bConnectedToServer this) then
        ([],
         UE_LOG_LogTemp LogTemp.Error "MCPサーバーに接続されていません"
         ++ ExecuteIfBound OnComplete_IsBound false)
      else if (length Found =? 0)%nat then
        ([],
         UE_LOG_LogTemp LogTemp.Warning
           ("ディレクトリ内にFBXアセットが見つかりませんでした: " +:+ DirectoryPath)
         ++ ExecuteIfBound OnComplete_IsBound false)
      else
        let bAllSucceeded := true in
        (map (fun File =>
                let FullPath := DirectoryPath </> File in
                UMCPAssetManager_ImportBlenderModel Manager FullPath DestinationPath
                  (fun Result =>
                     if negb (bSuccess Result) then [Call Clear_bAllSucceeded] else []))
             Found,
         ExecuteIfBound OnComplete_IsBound bAllSucceeded)
  end.

(** The parameters are built and dropped: nothing is sent yet. *)
Definition AMCPGameMode_CreateCustomLevel (this : AMCPGameMode)
    (LevelName Template : string) : bool * GameTrace unit :=
  match AssetManager this with
  | None =>
      (false, UE_LOG_LogTemp LogTemp.Error "MCPアセットマネージャーが初期化されていません")
  | Some _ =>
      if negb (bConnectedToServer this) then
        (false, UE_LOG_LogTemp LogTemp.Error "MCPサーバーに接続されていません")
      else
        (true, UE_LOG_LogTemp LogTemp.Warning "レベル作成機能は現在実装中です")
  end.

Definition AMCPGameMode_SetupLevelWithBlenderAssets (this : AMCPGameMode)
    (LevelName LevelType : string) (OnComplete_IsBound : bool)
    : GameTrace (bool * string) :=
  match AssetManager this with
  | None =>
      UE_LOG_LogTemp LogTemp.Error "MCPアセットマネージャーが初期化されていません"
      ++ ExecuteIfBound OnComplete_IsBound (false, "")
  | Some _ =>
      if negb (bConnectedToServer this) then
        UE_LOG_LogTemp LogTemp.Error "MCPサーバーに接続されていません"
        ++ ExecuteIfBound OnComplete_IsBound (false, "")
      else
        UE_LOG_LogTemp LogTemp.Warning "レベルセットアップ機能は現在実装中です"
        ++ ExecuteIfBound OnComplete_IsBound (true, "/Game/Levels/" +:+ LevelName)
  end.

(** ** [UMCPGameplayComponent] *)

Variable FVector : Type.
Variable FRotator : Type.
Variable SpawnActorSucceeds :
  list (AActor FVector FRotator) -> ActorClass -> FVector -> FRotator -> bool.

Local Abbreviation UWorld := (list (AActor FVector FRotator)).
Local Abbreviation AActor := (AActor FVector FRotator).

(** [UMCPGameplayComponent::InitializeComponent]: the component's one
    member, [AssetManager], after the call. *)
Definition UMCPGameplayComponent_InitializeComponent
    (Files : FileSystem) (Instance : option UMCPAssetManager)
    : option UMCPAssetManager * Trace unit :=
  let '(Manager, Done) := UMCPAssetManager_Get unit Files Instance in
  (Some Manager, Done).

(** [Assets] is what [LoadObject] finds. *)
Definition UMCPGameplayComponent_LoadBlenderAsset
    (AssetManager : option UMCPAssetManager) (Assets : gmap string UObject)
    (AssetPath : string) (OnLoaded_IsBound : bool) : GameTrace bool :=
  match AssetManager with
  | None =>
      UE_LOG_LogTemp LogTemp.Error "MCPアセットマネージャーが初期化されていません"
      ++ ExecuteIfBound OnLoaded_IsBound false
  | Some _ =>
      match Assets !! AssetPath with
      | Some _ =>
          UE_LOG_LogTemp LogTemp.Log
            ("アセット '" +:+ AssetPath +:+ "' はすでにロードされています")
          ++ ExecuteIfBound OnLoaded_IsBound true
      | None =>
          UE_LOG_LogTemp LogTemp.Warning
            ("アセット '" +:+ AssetPath
             +:+ "' のロードに失敗しました。インポートが必要かもしれません。")
          ++ ExecuteIfBound OnLoaded_IsBound false
      end
  end.

(** The last two lines of [SpawnAssetActor]. *)
Definition SpawnAssetActor_Failed (AssetPath : string) (World : option UWorld)
    : option AActor * option UWorld * GameTrace unit :=
  (None, World,
   UE_LOG_LogTemp LogTemp.Error
     ("アセット '" +:+ AssetPath +:+ "' のアクター生成に失敗しました")).

(** Spawn in the component's world and set the scale. *)
Definition SpawnInWorld (AssetPath Spawned : string) (Cls : ActorClass)
    (Mesh : option UObject) (Location : FVector) (Rotation : FRotator) (Scale : FVector)
    (World : option UWorld) : option AActor * option UWorld * GameTrace unit :=
  match World with
  | None => (None, World, UE_LOG_LogTemp LogTemp.Error "ワールドが無効です")
  | Some Actors =>
      if SpawnActorSucceeds Actors Cls Location Rotation then
        let Actor := {| Class := Cls;
                        ActorLocation := Location;
                        ActorRotation := Rotation;
                        StaticMesh := Mesh;
                        ActorScale3D := Some Scale;
                        ActorLabel := None |} in
        (Some Actor, Some (Actors ++ [Actor]),
         UE_LOG_LogTemp LogTemp.Log
           (Spawned +:+ " '" +:+ AssetPath +:+ "' のアクターをスポーンしました"))
      else SpawnAssetActor_Failed AssetPath World
  end.

(** [World] is what [GetWorld()] returns; the result is the actor returned
    (if any), the world afterwards and what was logged. *)
Definition UMCPGameplayComponent_SpawnAssetActor
    (AssetManager : option UMCPAssetManager) (Assets : gmap string UObject)
    (World : option UWorld)
    (AssetPath : string) (Location : FVector) (Rotation : FRotator) (Scale : FVector)
    : option AActor * option UWorld * GameTrace unit :=
  match AssetManager with
  | None =>
      (None, World,
       UE_LOG_LogTemp LogTemp.Error "MCPアセットマネージャーが初期化されていません")
  | Some _ =>
      match Assets !! AssetPath with
      | None =>
          (None, World,
           UE_LOG_LogTemp LogTemp.Error
             ("アセット '" +:+ AssetPath +:+ "' をロードできませんでした"))
      | Some Asset =>
          match Asset with
          | UStaticMesh _ =>
              SpawnInWorld AssetPath "アセット" AStaticMeshActor_StaticClass (Some Asset)
                Location Rotation Scale World
          | UBlueprint (Some Generated) =>
              SpawnInWorld AssetPath "ブループリント" (BPClass Generated) None
                Location Rotation Scale World
          | UBlueprint None | UOther => SpawnAssetActor_Failed AssetPath World
          end
      end
  end.

(** ** [AMCPShooterGameMode] (the copy under [MCPShooterGame/]) *)

(** An [int32] after an addition: the value wraps around. *)
Definition Int32 (z : Z) : Z := (z + 2147483648) mod 4294967296 - 2147483648.

(** What the shooter's game mode does to the engine, in order. The timer
    calls are the ones on [EnemySpawnTimerHandle]; [Issue] is a request
    handed to the HTTP module. *)
Inductive ShooterEffect : Type :=
| ShooterLogged (V : LogTemp.Verbosity) (Message : string)
| SpawnPlayerCharacter
| SetTimer_SpawnEnemy
| ClearTimer
| Destroy (Enemy : string)
| SpawnActor_EnemyClass
| AddDynamic_OnEnemyDestroyed (Enemy : string)
| Issue (Request : HttpRequest ShooterEffect).

(** The members the functions below read and write (the rest are floats
    handed on to engine calls). *)
Record AMCPShooterGameMode : Type := {
  MaxEnemyCount : Z;
  EnemyClass : option UClass;
  CurrentScore : Z;
  CurrentEnemyCount : Z;
  bGameStarted : bool;
  bGameOver : bool
}.

Definition AMCPShooterGameMode_StartGame (this : AMCPShooterGameMode)
    : AMCPShooterGameMode * list ShooterEffect :=
  if bGameStarted this || bGameOver this then (this, [])
  else
    ({| MaxEnemyCount := MaxEnemyCount this;
        EnemyClass := EnemyClass this;
        CurrentScore := 0;
        CurrentEnemyCount := 0;
        bGameStarted := true;
        bGameOver := false |},
     [SpawnPlayerCharacter; SetTimer_SpawnEnemy]).

(** [FoundEnemies] is what [GetAllActorsOfClass] returns. *)
Definition AMCPShooterGameMode_GameOver (this : AMCPShooterGameMode)
    (FoundEnemies : list string) : AMCPShooterGameMode * list ShooterEffect :=
  if negb (bGameStarted this) || bGameOver this then (this, [])
  else
    ({| MaxEnemyCount := MaxEnemyCount this;
        EnemyClass := EnemyClass this;
        CurrentScore := CurrentScore this;
        CurrentEnemyCount := CurrentEnemyCount this;
        bGameStarted := false;
        bGameOver := true |},
     [ClearTimer] ++ map Destroy FoundEnemies
     ++ [ShooterLogged LogTemp.Warning
           ("Game Over! Final Score: " +:+ FString.FromInt (CurrentScore this))]).

Definition AMCPShooterGameMode_AddScore (this : AMCPShooterGameMode) (ScoreToAdd : Z)
    : AMCPShooterGameMode * list ShooterEffect :=
  if negb (bGameStarted this) || bGameOver this then (this, [])
  else
    let Score := Int32 (CurrentScore this + ScoreToAdd) in
    ({| MaxEnemyCount := MaxEnemyCount this;
        EnemyClass := EnemyClass this;
        CurrentScore := Score;
        CurrentEnemyCount := CurrentEnemyCount this;
        bGameStarted := bGameStarted this;
        bGameOver := bGameOver this |},
     [ShooterLogged LogTemp.Display ("Score: " +:+ FString.FromInt Score)]).

(** [Spawned] is what [SpawnActor] returns: nothing, or an actor, given by
    its name and by whether it casts to [AMCPShooterEnemy]. *)
Definition AMCPShooterGameMode_SpawnEnemy (this : AMCPShooterGameMode)
    (Spawned : option (string * bool)) : AMCPShooterGameMode * list ShooterEffect :=
  if negb (bGameStarted this) || bGameOver this then (this, [])
  else if CurrentEnemyCount this >=? MaxEnemyCount this then (this, [])
  else
    match EnemyClass this with
    | None => (this, [ShooterLogged LogTemp.Error "敵クラスが設定されていません"])
    | Some _ =>
        match Spawned with
        | Some (Name, IsShooterEnemy) =>
            ({| MaxEnemyCount := MaxEnemyCount this;
                EnemyClass := EnemyClass this;
                CurrentScore := CurrentScore this;
                CurrentEnemyCount := Int32 (CurrentEnemyCount this + 1);
                bGameStarted := bGameStarted this;
                bGameOver := bGameOver this |},
             [SpawnActor_EnemyClass;
              ShooterLogged LogTemp.Display ("敵をスポーンしました: " +:+ Name)]
             ++ (if IsShooterEnemy then [AddDynamic_OnEnemyDestroyed Name] else []))
        | None => (this, [SpawnActor_EnemyClass])
        end
    end.

Definition AMCPShooterGameMode_OnEnemyDestroyed (this : AMCPShooterGameMode)
    : AMCPShooterGameMode :=
  if CurrentEnemyCount this >? 0 then
    {| MaxEnemyCount := MaxEnemyCount this;
       EnemyClass := EnemyClass this;
       CurrentScore := CurrentScore this;
       CurrentEnemyCount := Int32 (CurrentEnemyCount this - 1);
       bGameStarted := bGameStarted this;
       bGameOver := bGameOver this |}
  else this.

(** The lambda each of the three import functions hands to
    [ImportBlenderModel]; [What] is the asset's name in the messages. *)
Definition ImportShooterAsset_Lambda (What : string) (Result : FMCPAssetImportResult)
    : Trace ShooterEffect :=
  if bSuccess Result then
    [Call (ShooterLogged LogTemp.Log
             (What +:+ "アセットのインポートに成功しました: " +:+ AssetPath Result))]
  else
    [Call (ShooterLogged LogTemp.Warning (What +:+ "アセットのインポートに失敗しました"))].

(** [ImportPlayerShipAsset], [ImportEnemyShipAsset], [ImportProjectileAsset]:
    [Manager] is what [Get] returns, the instance [LoadBlenderAssets]
    obtained before. *)
Definition AMCPShooterGameMode_ImportPlayerShipAsset (Manager : UMCPAssetManager)
    : HttpRequest ShooterEffect :=
  UMCPAssetManager_ImportBlenderModel Manager "exports/PlayerShip.fbx" "/Game/BlenderAssets"
    (ImportShooterAsset_Lambda "プレイヤーシップ").

Definition AMCPShooterGameMode_ImportEnemyShipAsset (Manager : UMCPAssetManager)
    : HttpRequest ShooterEffect :=
  UMCPAssetManager_ImportBlenderModel Manager "exports/EnemyShip.fbx" "/Game/BlenderAssets"
    (ImportShooterAsset_Lambda "敵シップ").

Definition AMCPShooterGameMode_ImportProjectileAsset (Manager : UMCPAssetManager)
    : HttpRequest ShooterEffect :=
  UMCPAssetManager_ImportBlenderModel Manager "exports/Projectile.fbx" "/Game/BlenderAssets"
    (ImportShooterAsset_Lambda "プロジェクタイル").

(** The lambda [LoadBlenderAssets] hands to [CheckServerConnection]. *)
Definition LoadBlenderAssets_Lambda (Manager : UMCPAssetManager)
    (bSuccess : bool) (Message : string) : Trace ShooterEffect :=
  if bSuccess then
    [Call (ShooterLogged LogTemp.Log ("MCPサーバーに接続しました: " +:+ Message));
     Call (Issue (AMCPShooterGameMode_ImportPlayerShipAsset Manager));
     Call (Issue (AMCPShooterGameMode_ImportEnemyShipAsset Manager));
     Call (Issue (AMCPShooterGameMode_ImportProjectileAsset Manager))]
  else
    [Call (ShooterLogged LogTemp.Warning
             ("MCPサーバーに接続できませんでした: " +:+ Message))].

Definition AMCPShooterGameMode_LoadBlenderAssets
    (Files : FileSystem) (Instance : option UMCPAssetManager)
    : HttpRequest ShooterEffect * Trace unit :=
  let '(Manager, Done) := UMCPAssetManager_Get unit Files Instance in
  (UMCPAssetManager_CheckServerConnection Manager (LoadBlenderAssets_Lambda Manager), Done).

(** The calls that reach a shooter game mode during play, with what the
    engine answers to each. *)
Inductive ShooterCall : Type :=
| Call_StartGame
| Call_GameOver (FoundEnemies : list string)
| Call_AddScore (ScoreToAdd : Z)
| Call_SpawnEnemy (Spawned : option (string * bool))
| Call_OnEnemyDestroyed.

Definition Dispatch (this : AMCPShooterGameMode) (c : ShooterCall) : AMCPShooterGameMode :=
  match c with
  | Call_StartGame => (AMCPShooterGameMode_StartGame this).1
  | Call_GameOver FoundEnemies => (AMCPShooterGameMode_GameOver this FoundEnemies).1
  | Call_AddScore ScoreToAdd => (AMCPShooterGameMode_AddScore this ScoreToAdd).1
  | Call_SpawnEnemy Spawned => (AMCPShooterGameMode_SpawnEnemy this Spawned).1
  | Call_OnEnemyDestroyed => AMCPShooterGameMode_OnEnemyDestroyed this
  end.

Definition Play (this : AMCPShooterGameMode) (Calls : list ShooterCall)
    : AMCPShooterGameMode :=
  fold_left Dispatch Calls this.

(** The requests issued along a trace. *)
Fixpoint Issued (t : Trace ShooterEffect) : list (HttpRequest ShooterEffect) :=
  match t with
  | [] => []
  | Call (Issue r) :: t' => r :: Issued t'
  | _ :: t' => Issued t'
  end.

(** The phase of a game, read off the two flags. *)
Inductive GamePhase : Type := Idle | Running | Over | Inconsistent.

Definition PhaseOf (this : AMCPShooterGameMode) : GamePhase :=
  match bGameStarted this, bGameOver this with
  | false, false => Idle
  | true, false => Running
  | false, true => Over
  | true, true => Inconsistent
  end.

(** ** Properties of [AMCPGameMode] *)

Lemma AfterwardsOf_StartPlay_Lambda {D} (this : AMCPGameMode) (b : bool) (Message : string) :
  AfterwardsOf (StartPlay_Lambda (D:=D) b Message) this
  = {| AssetManager := AssetManager this; bConnectedToServer := b |}.
Proof using Type. by destruct b. Qed.

(** The game mode after the probe of [StartPlay] has completed. *)
Lemma StartPlay_probe (this : AMCPGameMode) (Manager : UMCPAssetManager) :
  AssetManager this = Some Manager ->
  exists r : HttpRequest (GameEffect unit),
    AMCPGameMode_StartPlay this = (Some r, []) /\
    URL r = ServerURL (MCPClient Manager) +:+ "/status" /\
    forall c : HttpCompletion,
      AssetManager (AfterwardsOf (OnProcessRequestComplete r c) this) = Some Manager /\
      (forall J, ExchangeSucceeds c J ->
         bConnectedToServer (AfterwardsOf (OnProcessRequestComplete r c) this)
         = FString.Equals (GetStringField J "status") "running") /\
      (ExchangeFails c ->
         bConnectedToServer (AfterwardsOf (OnProcessRequestComplete r c) this) = false).
Proof using Type.
  intros HM. unfold AMCPGameMode_StartPlay. rewrite HM.
  eexists. split; [reflexivity|]. split; [done|].
  intros c. simpl.
  destruct (Exchange_dichotomy double Deserialize c) as [[J HS]|HF].
  - rewrite (CompletionLambda_succeeds _ _ _ _ _ HS).
    unfold CheckConnection_Lambda.
    assert (HJ : forall J', ExchangeSucceeds c J' -> J' = J)
      by (intros J' HS'; eapply ExchangeSucceeds_functional; eauto).
    destruct (FString.Equals _ _) eqn:HE; rewrite AfterwardsOf_StartPlay_Lambda;
      (split; [done|]); (split; [|by intros HF; destruct (HF J)]);
      intros J' ->%HJ; by rewrite HE.
  - match goal with
    | |- context [CompletionLambda _ _ ?k c] =>
        destruct (CompletionLambda_fails double Deserialize k c HF) as [Line ->]
    end.
    unfold CheckConnection_Lambda.
    change (AfterwardsOf (UE_LOG Error Line :: ?t) this) with (AfterwardsOf t this).
    rewrite AfterwardsOf_StartPlay_Lambda.
    split; [done|]. split; [|done]. intros J HS. by destruct (HF J).
Qed.

(** X11. [StartPlay] probes the server through the asset manager, and when
    the probe completes the game mode's [bConnectedToServer] is what the
    probe found: [true] exactly when the exchange succeeded and the status
    matched ["running"], [false] after any failure. Its asset manager stays
    the same. *)
Theorem StartPlay_records_connection (this : AMCPGameMode) (Manager : UMCPAssetManager) :
  AssetManager this = Some Manager ->
  exists r : HttpRequest (GameEffect unit),
    AMCPGameMode_StartPlay this = (Some r, []) /\
    URL r = ServerURL (MCPClient Manager) +:+ "/status" /\
    forall c : HttpCompletion,
      let Then := AfterwardsOf (OnProcessRequestComplete r c) this in
      AssetManager Then = Some Manager /\
      (forall J, ExchangeSucceeds c J ->
         bConnectedToServer Then
         = FString.Equals (GetStringField J "status") "running") /\
      (ExchangeFails c -> bConnectedToServer Then = false).
Proof using Type.
  intros HM. destruct (StartPlay_probe this Manager HM) as (r & HStart & HUrl & HThen).
  exists r. split; [exact HStart|]. split; [exact HUrl|]. intros c Then. apply HThen.
Qed.

(** X12. [ImportBlenderAsset] refuses to work without an asset manager or
    before the server is known to be connected: it issues no request,
    writes one error line, and the delegate, when bound, is executed at once
    with [false]. *)
Theorem ImportBlenderAsset_refused
    (this : AMCPGameMode) (AssetPath DestinationPath : string) (IsBound : bool) :
  AssetManager this = None \/ bConnectedToServer this = false ->
  exists Done,
    AMCPGameMode_ImportBlenderAsset this AssetPath DestinationPath IsBound = (None, Done) /\
    Executed Done = (if IsBound then [false] else []) /\
    exists Line, GameLog Done = [(LogTemp.Error, Line)].
Proof using Type.
  unfold AMCPGameMode_ImportBlenderAsset.
  intros [-> | ->].
  - eexists. split; [reflexivity|]. destruct IsBound; split; by eauto.
  - destruct (AssetManager this); eexists; (split; [reflexivity|]);
      destruct IsBound; split; by eauto.
Qed.

Lemma Executed_app {D} (t1 t2 : GameTrace D) :
  Executed (t1 ++ t2) = Executed t1 ++ Executed t2.
Proof using Type.
  induction t1 as [|e t1 IH]; [done|].
  destruct e as [| | | | |[]]; simpl; by rewrite ?IH.
Qed.

(** X13. Once connected, [ImportBlenderAsset] posts the [import_asset]
    command for the given paths and executes nothing yet; when the request
    completes, the delegate, if bound, is executed exactly once, with [true]
    after a successful exchange and [false] after a failed one. An unbound
    delegate is never executed. *)
Theorem ImportBlenderAsset_reports_result
    (this : AMCPGameMode) (Manager : UMCPAssetManager)
    (AssetPath DestinationPath : string) (IsBound : bool) :
  AssetManager this = Some Manager ->
  bConnectedToServer this = true ->
  exists r : HttpRequest (GameEffect bool),
    AMCPGameMode_ImportBlenderAsset this AssetPath DestinationPath IsBound = (Some r, []) /\
    URL r = ServerURL (MCPClient Manager) +:+ "/api/unreal/command" /\
    Content r
    = Serialize {[ "command" := JsonString "import_asset";
                   "params" := JsonObject
                     {[ "path" := JsonString AssetPath;
                        "destination" := JsonString DestinationPath ]} ]} /\
    forall c : HttpCompletion,
      (forall J, ExchangeSucceeds c J ->
         Executed (OnProcessRequestComplete r c) = if IsBound then [true] else []) /\
      (ExchangeFails c ->
         Executed (OnProcessRequestComplete r c) = if IsBound then [false] else []).
Proof using Type.
  intros HM HC. unfold AMCPGameMode_ImportBlenderAsset. rewrite HM, HC.
  eexists. split; [reflexivity|]. split; [done|]. split.
  - cbn -[RequestObj ImportAsset_Params].
    by rewrite RequestObj_fields, ImportAsset_Params_fields.
  - intros c. simpl. split.
    + intros J HS. rewrite (CompletionLambda_succeeds _ _ _ _ _ HS).
      unfold ImportAsset_Lambda, ImportBlenderModel_Lambda. simpl. by destruct IsBound.
    + intros HF.
      match goal with
      | |- context [CompletionLambda _ _ ?k c] =>
          destruct (CompletionLambda_fails double Deserialize k c HF) as [Line ->]
      end.
      unfold ImportAsset_Lambda, ImportBlenderModel_Lambda. simpl. by destruct IsBound.
Qed.

Lemma ImportBlenderModel_never_executes
    (Manager : UMCPAssetManager) (Src Dest : string)
    (K : FMCPAssetImportResult -> GameTrace bool) (c : HttpCompletion) :
  (forall Result, Executed (K Result) = []) ->
  Executed (OnProcessRequestComplete
              (UMCPAssetManager_ImportBlenderModel Manager Src Dest K) c) = [].
Proof using Type.
  intros HK.
  destruct (Start_once double SanitizeFloat Deserialize Serialize Manager
              (ImportBlenderModel Src Dest) K c) as (Pre & a & HPre & HQ).
  simpl in HPre. simpl. rewrite HPre, Executed_app, HK, app_nil_r.
  clear HPre. induction HQ as [|e Pre He _ IH]; [done|].
  destruct e; simpl in *; done.
Qed.

(** X14. Once connected, [ImportAllAssetsInDirectory] behaves as follows.
    When no file was found it issues nothing and executes the delegate (if
    bound) with [false]. Otherwise it posts one [import_asset] command per
    file found, in order, for the file's path under the directory, and
    executes the delegate at once with [true], before any of these requests
    has completed; the completions themselves never execute the delegate,
    whatever they bring. *)
Theorem ImportAllAssetsInDirectory_reports_early
    (this : AMCPGameMode) (Manager : UMCPAssetManager) (Found : list string)
    (DirectoryPath DestinationPath : string) (IsBound : bool) :
  AssetManager this = Some Manager ->
  bConnectedToServer this = true ->
  let '(Requests, Done) :=
    AMCPGameMode_ImportAllAssetsInDirectory this Found DirectoryPath DestinationPath
      IsBound in
  length Requests = length Found /\
  Executed Done = (if IsBound then [negb (bool_decide (Found = []))] else []) /\
  (forall (i : nat) File, Found !! i = Some File ->
     exists r, Requests !! i = Some r /\
       URL r = ServerURL (MCPClient Manager) +:+ "/api/unreal/command" /\
       Content r
       = Serialize {[ "command" := JsonString "import_asset";
                      "params" := JsonObject
                        {[ "path" := JsonString (DirectoryPath </> File);
                           "destination" := JsonString DestinationPath ]} ]}) /\
  (forall r c, r ∈ Requests -> Executed (OnProcessRequestComplete r c) = []).
Proof using Type.
  intros HM HC. unfold AMCPGameMode_ImportAllAssetsInDirectory. rewrite HM, HC.
  destruct Found as [|File0 Found]; cbn [length Nat.eqb negb].
  { split; [done|]. split; [by destruct IsBound|].
    split; [by intros i File ?|]. by intros r c ?%elem_of_nil. }
  set (Files := File0 :: Found).
  split; [by rewrite length_map|]. split; [by destruct IsBound|]. split.
  - intros i File Hi. rewrite list_lookup_fmap, Hi. eexists. split; [reflexivity|].
    split; [done|]. cbn -[RequestObj ImportAsset_Params].
    by rewrite RequestObj_fields, ImportAsset_Params_fields.
  - intros r c (File & -> & _)%list_elem_of_fmap.
    apply ImportBlenderModel_never_executes. intros Result.
    by destruct (bSuccess Result).
Qed.

(** ** Properties of [UMCPGameplayComponent] *)

(** X15. [LoadBlenderAsset] only looks: it writes one line and executes the
    delegate, when bound, exactly once, with [true] exactly when the
    component has its asset manager and the asset is already loadable. *)
Theorem LoadBlenderAsset_reports_residency
    (AssetManager : option UMCPAssetManager) (Assets : gmap string UObject)
    (AssetPath : string) (IsBound : bool) :
  let Done := UMCPGameplayComponent_LoadBlenderAsset AssetManager Assets AssetPath IsBound in
  length (GameLog Done) = 1%nat /\
  Executed Done
  = (if IsBound
     then [bool_decide (is_Some AssetManager /\ is_Some (Assets !! AssetPath))]
     else []).
Proof using Type.
  unfold UMCPGameplayComponent_LoadBlenderAsset.
  destruct AssetManager as [Manager|], (Assets !! AssetPath) as [Asset|], IsBound;
    simpl; split; try done; f_equal; symmetry;
    first [ apply bool_decide_eq_true; by eauto
          | apply bool_decide_eq_false; intros [[? ?] [? ?]]; done ].
Qed.

(** X16. [SpawnAssetActor] returns an actor exactly when the component has
    its asset manager, the asset loads and is a static mesh or a blueprint
    with a generated class, the component has a world, and the world agrees
    to spawn. Then the world holds exactly one more actor, the one
    returned: of the asset's class, at the given place, with the mesh bound
    when the asset is one, the given scale and no label. Otherwise the
    world is as before and one error line is written. *)
Theorem SpawnAssetActor_result
    (AssetManager : option UMCPAssetManager) (Assets : gmap string UObject)
    (World : option UWorld)
    (AssetPath : string) (Location : FVector) (Rotation : FRotator) (Scale : FVector) :
  let '(Returned, World', Done) :=
    UMCPGameplayComponent_SpawnAssetActor AssetManager Assets World
      AssetPath Location Rotation Scale in
  (is_Some Returned <->
     is_Some AssetManager /\
     exists Asset Cls Actors,
       Assets !! AssetPath = Some Asset /\ SpawnClassOf Asset = Some Cls /\
       World = Some Actors /\ SpawnActorSucceeds Actors Cls Location Rotation = true) /\
  (Returned = None ->
     World' = World /\ exists Line, GameLog Done = [(LogTemp.Error, Line)]) /\
  (forall Actor, Returned = Some Actor ->
     exists Asset Cls Actors,
       Assets !! AssetPath = Some Asset /\ SpawnClassOf Asset = Some Cls /\
       World = Some Actors /\
       World' = Some (Actors ++ [Actor]) /\
       Actor = {| Class := Cls;
                  ActorLocation := Location;
                  ActorRotation := Rotation;
                  StaticMesh := MeshOf Asset;
                  ActorScale3D := Some Scale;
                  ActorLabel := None |}).
Proof using Type.
  unfold UMCPGameplayComponent_SpawnAssetActor, SpawnInWorld, SpawnAssetActor_Failed.
  destruct AssetManager as [Manager|];
    [destruct (Assets !! AssetPath) as [[Name|[Generated|]|]|] eqn:HA;
     try destruct World as [Actors|];
     try destruct (SpawnActorSucceeds Actors _ Location Rotation) eqn:HS|];
    simpl; (split; [split|split]).
  all: try (intros [? ?]; done).
  all: try (intros [[? ?] (? & ? & ? & ? & ? & ? & ?)]; simplify_eq/=; congruence).
  all: try (intros _; split; [done|by eexists]).
  all: try done.
  all: try (intros _; by eexists).
  - intros _. split; [by eexists|].
    by exists (UStaticMesh Name), AStaticMeshActor_StaticClass, Actors.
  - intros Actor [= <-].
    by exists (UStaticMesh Name), AStaticMeshActor_StaticClass, Actors.
  - intros _. split; [by eexists|].
    by exists (UBlueprint (Some Generated)), (BPClass Generated), Actors.
  - intros Actor [= <-].
    by exists (UBlueprint (Some Generated)), (BPClass Generated), Actors.
Qed.

(** X17. The component and the asset manager place assets alike. Given the
    same loadable assets and the same world, [SpawnAssetActor] (with its
    asset manager set) returns an actor exactly when [PlaceAssetInLevel],
    called on the game thread of an editor build without an actor name,
    returns [true]; and both leave the same world behind. *)
Theorem SpawnAssetActor_agrees_with_PlaceAssetInLevel
    (Manager : UMCPAssetManager) (E : Engine FVector FRotator)
    (AssetPath : string) (Location : FVector) (Rotation : FRotator) (Scale : FVector) :
  let '(Placed, E', _) :=
    UMCPAssetManager_PlaceAssetInLevel FVector FRotator SpawnActorSucceeds (U:=unit)
      true GameThread AssetPath Location Rotation Scale "" E in
  let '(Returned, World', _) :=
    UMCPGameplayComponent_SpawnAssetActor (Some Manager)
      (Assets FVector FRotator E) (EditorWorld FVector FRotator E)
      AssetPath Location Rotation Scale in
  (Placed = true <-> is_Some Returned) /\
  EditorWorld FVector FRotator E' = World'.
Proof using Type.
  unfold UMCPGameplayComponent_SpawnAssetActor, SpawnInWorld, SpawnAssetActor_Failed.
  unfold_place. simpl.
  destruct (Assets FVector FRotator E !! AssetPath) as [[Name|[Generated|]|]|];
    try destruct (EditorWorld FVector FRotator E) as [Actors|] eqn:HW;
    try destruct (SpawnActorSucceeds Actors _ Location Rotation);
    simpl; rewrite ?HW; split; try done; split; try done;
    try (by intros [? ?]); by eauto.
Qed.

(** ** Properties of [AMCPShooterGameMode] *)

Lemma Int32_in_range (z : Z) : -2147483648 <= z < 2147483648 -> Int32 z = z.
Proof using Type.
  intros H. unfold Int32. rewrite Z.mod_small; lia.
Qed.

Lemma Dispatch_MaxEnemyCount (this : AMCPShooterGameMode) (c : ShooterCall) :
  MaxEnemyCount (Dispatch this c) = MaxEnemyCount this.
Proof using Type.
  destruct c; simpl;
    unfold AMCPShooterGameMode_StartGame, AMCPShooterGameMode_GameOver,
      AMCPShooterGameMode_AddScore, AMCPShooterGameMode_SpawnEnemy,
      AMCPShooterGameMode_OnEnemyDestroyed;
    repeat case_match; done.
Qed.

Lemma Dispatch_count_in_bounds (this : AMCPShooterGameMode) (c : ShooterCall) :
  0 <= MaxEnemyCount this < 2147483648 ->
  0 <= CurrentEnemyCount this <= MaxEnemyCount this ->
  0 <= CurrentEnemyCount (Dispatch this c) <= MaxEnemyCount this.
Proof using Type.
  intros HM HC.
  destruct c; simpl;
    unfold AMCPShooterGameMode_StartGame, AMCPShooterGameMode_GameOver,
      AMCPShooterGameMode_AddScore, AMCPShooterGameMode_SpawnEnemy,
      AMCPShooterGameMode_OnEnemyDestroyed;
    try destruct (Z.geb_spec (CurrentEnemyCount this) (MaxEnemyCount this));
    try destruct (Z.gtb_spec (CurrentEnemyCount this) 0);
    repeat case_match; simpl; try lia;
    rewrite Int32_in_range; lia.
Qed.

(** X18. The shooter never holds more enemies than it allows. Through any
    sequence of calls ([StartGame], [GameOver], [AddScore], [SpawnEnemy]
    with any answer of the engine, [OnEnemyDestroyed]), [MaxEnemyCount]
    stays as it is and [CurrentEnemyCount] stays between 0 and
    [MaxEnemyCount], with no [int32] overflow on the way. *)
Theorem enemy_count_stays_in_bounds (this : AMCPShooterGameMode) (Calls : list ShooterCall) :
  0 <= MaxEnemyCount this < 2147483648 ->
  0 <= CurrentEnemyCount this <= MaxEnemyCount this ->
  MaxEnemyCount (Play this Calls) = MaxEnemyCount this /\
  0 <= CurrentEnemyCount (Play this Calls) <= MaxEnemyCount this.
Proof using Type.
  revert this. induction Calls as [|c Calls IH]; intros this HM HC; [done|].
  unfold Play in *. cbn [fold_left].
  pose proof (Dispatch_MaxEnemyCount this c) as HMax.
  pose proof (Dispatch_count_in_bounds this c HM HC) as HCount.
  destruct (IH (Dispatch this c)) as [IH1 IH2]; [lia|lia|].
  split; lia.
Qed.

(** X19. Game over is final. Once [bGameOver] is set, no sequence of calls
    starts the game again or changes the score: [StartGame], [GameOver],
    [AddScore] and [SpawnEnemy] have become no-ops, and only the count of
    enemies can still go down. *)
Theorem game_over_is_final (this : AMCPShooterGameMode) (Calls : list ShooterCall) :
  bGameOver this = true ->
  let End := Play this Calls in
  bGameOver End = true /\
  bGameStarted End = bGameStarted this /\
  CurrentScore End = CurrentScore this /\
  CurrentEnemyCount End <= Z.max (CurrentEnemyCount this) 0 /\
  (forall c, c <> Call_OnEnemyDestroyed -> Dispatch this c = this).
Proof using Type.
  intros HO End. subst End. split_and!.
  1-4: revert this HO; induction Calls as [|c Calls IH]; intros this HO;
    [simpl; try done; lia|];
    unfold Play in *; cbn [fold_left].
  1-4: assert (HD : bGameOver (Dispatch this c) = true /\
                    bGameStarted (Dispatch this c) = bGameStarted this /\
                    CurrentScore (Dispatch this c) = CurrentScore this /\
                    CurrentEnemyCount (Dispatch this c) <= Z.max (CurrentEnemyCount this) 0)
    by (destruct c; simpl;
        unfold AMCPShooterGameMode_StartGame, AMCPShooterGameMode_GameOver,
          AMCPShooterGameMode_AddScore, AMCPShooterGameMode_SpawnEnemy,
          AMCPShooterGameMode_OnEnemyDestroyed;
        rewrite ?HO, ?orb_true_r; simpl; try (split_and!; (done || lia));
        destruct (Z.gtb_spec (CurrentEnemyCount this) 0); simpl;
        split_and!; try done; try lia;
        unfold Int32;
        pose proof (Z.mod_pos_bound (CurrentEnemyCount this - 1 + 2147483648)
                      4294967296 ltac:(lia));
        destruct (Z_lt_dec (CurrentEnemyCount this) 2147483649);
        [rewrite Z.mod_small; lia| lia]);
    destruct HD as (H1 & H2 & H3 & H4).
  - by apply IH.
  - rewrite IH; done.
  - rewrite IH; done.
  - etrans; [apply IH; done|]. lia.
  - intros c Hc. destruct c; simpl; try done;
      unfold AMCPShooterGameMode_StartGame, AMCPShooterGameMode_GameOver,
        AMCPShooterGameMode_AddScore, AMCPShooterGameMode_SpawnEnemy;
      by rewrite HO, orb_true_r.
Qed.

(** X20. The two flags of the shooter form a one-way state machine. A game
    that is idle (neither flag set) becomes running by [StartGame], which
    also resets score and enemy count to 0; a running game becomes over by
    [GameOver], which leaves score and count alone; no other call changes
    the phase, and the flags are never both set. *)
Theorem shooter_phases (this : AMCPShooterGameMode) (c : ShooterCall) :
  PhaseOf this <> Inconsistent ->
  let Next := Dispatch this c in
  PhaseOf Next
  = match PhaseOf this, c with
    | Idle, Call_StartGame => Running
    | Running, Call_GameOver _ => Over
    | Phase, _ => Phase
    end /\
  (PhaseOf this = Idle -> c = Call_StartGame ->
     CurrentScore Next = 0 /\ CurrentEnemyCount Next = 0) /\
  (PhaseOf this = Running -> (exists Found, c = Call_GameOver Found) ->
     CurrentScore Next = CurrentScore this /\
     CurrentEnemyCount Next = CurrentEnemyCount this).
Proof using Type.
  unfold PhaseOf. intros HP.
  destruct c; simpl;
    unfold AMCPShooterGameMode_StartGame, AMCPShooterGameMode_GameOver,
      AMCPShooterGameMode_AddScore, AMCPShooterGameMode_SpawnEnemy,
      AMCPShooterGameMode_OnEnemyDestroyed;
    destruct (bGameStarted this) eqn:HS, (bGameOver this) eqn:HO; try done; simpl;
    repeat case_match; simpl; rewrite ?HS, ?HO;
    split_and!; try done.
  all: try (intros _ [? ?]; done).
  all: try (intros ? [? ?]; done).
  all: simpl in *; congruence.
Qed.

Lemma ImportShooterAsset_issues_nothing
    (Manager : UMCPAssetManager) (Src Dest What : string) (c : HttpCompletion) :
  Issued (OnProcessRequestComplete
            (UMCPAssetManager_ImportBlenderModel Manager Src Dest
               (ImportShooterAsset_Lambda What)) c) = [].
Proof using Type.
  simpl.
  destruct (Exchange_dichotomy double Deserialize c) as [[J HS]|HF].
  - rewrite (CompletionLambda_succeeds _ _ _ _ _ HS).
    unfold ImportAsset_Lambda, ImportBlenderModel_Lambda, ImportShooterAsset_Lambda.
    done.
  - match goal with
    | |- context [CompletionLambda _ _ ?k c] =>
        destruct (CompletionLambda_fails double Deserialize k c HF) as [Line ->]
    end.
    done.
Qed.

(** X21. [LoadBlenderAssets] probes the server and imports only after a
    good answer. When the probe's exchange succeeds with status
    ["running"], its completion issues three imports, in this order:
    [exports/PlayerShip.fbx], [exports/EnemyShip.fbx] and
    [exports/Projectile.fbx], each into [/Game/BlenderAssets]. When the
    status is anything else or the exchange fails, it issues nothing. The
    completion of an import issues nothing further. *)
Theorem LoadBlenderAssets_imports_after_probe
    (Files : FileSystem) (Instance : option UMCPAssetManager) :
  let Manager := (UMCPAssetManager_Get unit Files Instance).1 in
  let Probe := (AMCPShooterGameMode_LoadBlenderAssets Files Instance).1 in
  let Envelope := fun Src : string =>
    Serialize {[ "command" := JsonString "import_asset";
                 "params" := JsonObject
                   {[ "path" := JsonString Src;
                      "destination" := JsonString "/Game/BlenderAssets" ]} ]} in
  URL Probe = ServerURL (MCPClient Manager) +:+ "/status" /\
  forall c : HttpCompletion,
    (forall J, ExchangeSucceeds c J ->
       FString.Equals (GetStringField J "status") "running" = true ->
       exists r1 r2 r3,
         Issued (OnProcessRequestComplete Probe c) = [r1; r2; r3] /\
         map URL [r1; r2; r3]
         = replicate 3 (ServerURL (MCPClient Manager) +:+ "/api/unreal/command") /\
         map Content [r1; r2; r3]
         = map Envelope ["exports/PlayerShip.fbx"; "exports/EnemyShip.fbx";
                         "exports/Projectile.fbx"] /\
         forall r c', r ∈ [r1; r2; r3] -> Issued (OnProcessRequestComplete r c') = []) /\
    (forall J, ExchangeSucceeds c J ->
       FString.Equals (GetStringField J "status") "running" = false ->
       Issued (OnProcessRequestComplete Probe c) = []) /\
    (ExchangeFails c -> Issued (OnProcessRequestComplete Probe c) = []).
Proof using Type.
  intros Manager Probe Envelope. subst Probe Envelope.
  unfold AMCPShooterGameMode_LoadBlenderAssets.
  destruct (UMCPAssetManager_Get unit Files Instance) as [M Done] eqn:HG.
  subst Manager. cbn [fst]. split; [done|]. intros c. simpl. split_and!.
  - intros J HS HE. rewrite (CompletionLambda_succeeds _ _ _ _ _ HS).
    unfold CheckConnection_Lambda, LoadBlenderAssets_Lambda.
    fold (GetStringField J "status"). rewrite HE.
    eexists _, _, _. split; [reflexivity|]. split; [done|]. split.
    + cbn -[RequestObj ImportAsset_Params].
      by rewrite !RequestObj_fields, !ImportAsset_Params_fields.
    + intros r c' Hr.
      repeat (apply elem_of_cons in Hr as [->|Hr];
              [apply ImportShooterAsset_issues_nothing|]).
      by apply elem_of_nil in Hr.
  - intros J HS HE. rewrite (CompletionLambda_succeeds _ _ _ _ _ HS).
    unfold CheckConnection_Lambda, LoadBlenderAssets_Lambda.
    fold (GetStringField J "status"). by rewrite HE.
  - intros HF.
    match goal with
    | |- context [CompletionLambda _ _ ?k c] =>
        destruct (CompletionLambda_fails double Deserialize k c HF) as [Line ->]
    end.
    done.
Qed.

(** ** How the pieces compose *)

(** X22. A game mode fresh from its constructor has its asset manager but
    does not import: [ImportBlenderAsset] issues nothing. It starts to
    issue imports once the probe of [StartPlay] has completed with a
    successful exchange and status ["running"], and keeps refusing after a
    probe that failed. *)
Theorem imports_wait_for_the_probe
    (Files : FileSystem) (Instance : option UMCPAssetManager)
    (AssetPath DestinationPath : string) (IsBound : bool) :
  let this := (AMCPGameMode_ctor Files Instance).1 in
  (AMCPGameMode_ImportBlenderAsset this AssetPath DestinationPath IsBound).1 = None /\
  exists Probe : HttpRequest (GameEffect unit),
    AMCPGameMode_StartPlay this = (Some Probe, []) /\
    forall c : HttpCompletion,
      let Then := AfterwardsOf (OnProcessRequestComplete Probe c) this in
      (forall J, ExchangeSucceeds c J ->
         FString.Equals (GetStringField J "status") "running" = true ->
         is_Some (AMCPGameMode_ImportBlenderAsset Then AssetPath DestinationPath
                    IsBound).1) /\
      (ExchangeFails c ->
         (AMCPGameMode_ImportBlenderAsset Then AssetPath DestinationPath IsBound).1
         = None).
Proof using Type.
  intros this. subst this. unfold AMCPGameMode_ctor.
  destruct (UMCPAssetManager_Get unit Files Instance) as [Manager Done].
  cbn [fst]. split; [done|].
  destruct (StartPlay_probe
              {| AssetManager := Some Manager; bConnectedToServer := false |}
              Manager eq_refl) as (Probe & HStart & _ & HThen).
  exists Probe. split; [exact HStart|].
  intros c. destruct (HThen c) as (HM & HOk & HFail). cbv zeta in *.
  unfold AMCPGameMode_ImportBlenderAsset. rewrite HM. split.
  - intros J HS HE. rewrite (HOk J HS), HE. by eexists.
  - intros HF. by rewrite (HFail HF).
Qed.

(** X23. The level functions share the gate of the imports, and send
    nothing. [CreateCustomLevel] returns [true], and
    [SetupLevelWithBlenderAssets] hands [true] with the path
    [/Game/Levels/<LevelName>] to its delegate, exactly when the game mode
    has its asset manager and is connected, that is, exactly when
    [ImportBlenderAsset] would issue a request; otherwise they answer
    [false], the latter with an empty path. *)
Theorem level_functions_share_the_gate
    (this : AMCPGameMode) (LevelName Other AssetPath DestinationPath : string) :
  let Ready :=
    bool_decide (is_Some
                   (AMCPGameMode_ImportBlenderAsset this AssetPath DestinationPath
                      true).1) in
  (AMCPGameMode_CreateCustomLevel this LevelName Other).1 = Ready /\
  Executed (AMCPGameMode_SetupLevelWithBlenderAssets this LevelName Other true)
  = [if Ready then (true, "/Game/Levels/" +:+ LevelName) else (false, "")] /\
  Executed (AMCPGameMode_SetupLevelWithBlenderAssets this LevelName Other false) = [].
Proof using Type.
  unfold AMCPGameMode_CreateCustomLevel, AMCPGameMode_SetupLevelWithBlenderAssets,
    AMCPGameMode_ImportBlenderAsset.
  destruct (AssetManager this) as [Manager|], (bConnectedToServer this); done.
Qed.

(** X24. A component that went through [InitializeComponent] has its asset
    manager, initialized; from then on [LoadBlenderAsset] answers [true]
    exactly for the assets that load, and [SpawnAssetActor] fails only for
    want of an asset, a class, a world or a spawn. *)
Theorem component_after_InitializeComponent
    (Files : FileSystem) (Instance : option UMCPAssetManager)
    (Assets : gmap string UObject) (World : option UWorld)
    (AssetPath : string) (Location : FVector) (Rotation : FRotator) (Scale : FVector) :
  (forall M, Instance = Some M -> bInitialized M = true) ->
  let AssetManager := (UMCPGameplayComponent_InitializeComponent Files Instance).1 in
  (exists Manager, AssetManager = Some Manager /\ bInitialized Manager = true) /\
  Executed (UMCPGameplayComponent_LoadBlenderAsset AssetManager Assets AssetPath true)
  = [bool_decide (is_Some (Assets !! AssetPath))] /\
  (is_Some (UMCPGameplayComponent_SpawnAssetActor AssetManager Assets World
              AssetPath Location Rotation Scale).1.1
   <-> exists Asset Cls Actors,
         Assets !! AssetPath = Some Asset /\ SpawnClassOf Asset = Some Cls /\
         World = Some Actors /\ SpawnActorSucceeds Actors Cls Location Rotation = true).
Proof using Type.
  intros HI AM. subst AM. unfold UMCPGameplayComponent_InitializeComponent.
  assert (HInit : bInitialized (UMCPAssetManager_Get unit Files Instance).1 = true).
  { destruct Instance as [M|]; unfold_Get; [by apply HI|].
    change UMCPAssetManager_ctor
      with {| MCPClient := FMCPClient_ctor; bInitialized := false |}.
    by rewrite (Initialize_first double DoubleToInt32 SanitizeFloat Atod Deserialize
                  ProjectConfigDir). }
  destruct (UMCPAssetManager_Get unit Files Instance) as [Manager Done].
  cbn [fst] in *. split_and!.
  - by exists Manager.
  - unfold UMCPGameplayComponent_LoadBlenderAsset.
    by destruct (Assets !! AssetPath) as [Asset|].
  - unfold UMCPGameplayComponent_SpawnAssetActor, SpawnInWorld, SpawnAssetActor_Failed.
    destruct (Assets !! AssetPath) as [[Name|[Generated|]|]|];
      try destruct World as [Actors|];
      try destruct (SpawnActorSucceeds Actors _ Location Rotation) eqn:HS;
      simpl; split.
    all: try (intros [? ?]; done).
    all: try (intros (? & ? & ? & ? & ? & ? & ?); simplify_eq/=; congruence).
    + intros _. by exists (UStaticMesh Name), AStaticMeshActor_StaticClass, Actors.
    + intros _. by exists (UBlueprint (Some Generated)), (BPClass Generated), Actors.
Qed.

End Game.

(** * The further properties at work *)

(** A game mode that has its asset manager, connected or not yet. *)
Definition GameModeAt (Connected : bool) : AMCPGameMode :=
  {| AssetManager := Some Manager; bConnectedToServer := Connected |}.

(** A shooter with room for two enemies. *)
Definition ShooterAt (Started Over : bool) (Score Enemies : Z) : AMCPShooterGameMode :=
  {| MaxEnemyCount := 2;
     EnemyClass := Some {| GetPathName := "/Game/Blueprints/BP_MCPShooterEnemy" |};
     CurrentScore := Score;
     CurrentEnemyCount := Enemies;
     bGameStarted := Started;
     bGameOver := Over |}.

(** A 404 whose body would parse. *)
Lemma Transport_failure_causes_witness :
  OnProcessRequestComplete
    (FMCPClient_SendGetRequest Z Deserialize "http://127.0.0.1:8080/status" Report2)
    (Answer 404 (StatusText "running"))
  = [UE_LOG Error "HTTPリクエストが失敗しました: 404"; Call (false, None)].
Proof.
  destruct (Transport_failure_causes Z Deserialize "http://127.0.0.1:8080/status" ""
              (Answer 404 (StatusText "running"))) as (-> & _ & HCode & _).
  rewrite (HCode {| GetResponseCode := 404;
                    GetContentAsString := StatusText "running" |});
    [reflexivity|reflexivity|reflexivity|discriminate].
Defined.

(** A 200 answer that says nothing about the status. *)
Lemma CheckConnection_status_absent_witness :
  Delivered (OnProcessRequestComplete
               (FMCPClient_CheckConnection Z SanitizeFloat Deserialize Client Report2)
               (Answer 200 BareServerText))
  = [(false, "MCPサーバーの状態が異常です: ")].
Proof.
  apply (CheckConnection_status_absent Z SanitizeFloat Deserialize Client
           (Answer 200 BareServerText) {[ "server" := JsonObject ∅ ]}).
  - apply Answer_succeeds. reflexivity.
  - left. reflexivity.
Defined.

(** An answer to an import that has no [result] at all. *)
Lemma ImportAsset_without_asset_info_witness :
  Delivered (OnProcessRequestComplete
               (FMCPClient_ImportAsset Z SanitizeFloat Deserialize Serialize Client
                  "exports/EnemyShip.fbx" "/Game/BlenderAssets" Report2)
               (Answer 200 (StatusText "running")))
  = [(true, "")].
Proof.
  destruct (ImportAsset_without_asset_info Z SanitizeFloat Deserialize Serialize Client
              "exports/EnemyShip.fbx" "/Game/BlenderAssets"
              (Answer 200 (StatusText "running"))
              {[ "status" := JsonString "running" ]}) as (HNone & _).
  - apply Answer_succeeds. reflexivity.
  - apply HNone. reflexivity.
Defined.

(** The probe of [StartPlay] answered with status ["running"]. *)
Lemma StartPlay_records_connection_witness :
  exists r : HttpRequest (GameEffect unit),
    AMCPGameMode_StartPlay Z SanitizeFloat Deserialize (GameModeAt false) = (Some r, []) /\
    bConnectedToServer
      (AfterwardsOf (OnProcessRequestComplete r (Answer 200 (StatusText "running")))
         (GameModeAt false))
    = true.
Proof.
  destruct (StartPlay_records_connection Z SanitizeFloat Deserialize
              (GameModeAt false) Manager eq_refl) as (r & HStart & _ & HThen).
  exists r. split; [exact HStart|].
  destruct (HThen (Answer 200 (StatusText "running"))) as (_ & HOk & _).
  rewrite (HOk {[ "status" := JsonString "running" ]}).
  - reflexivity.
  - apply Answer_succeeds. reflexivity.
Defined.

(** An import asked of a game mode that is not connected. *)
Lemma ImportBlenderAsset_refused_witness :
  exists Done,
    AMCPGameMode_ImportBlenderAsset Z SanitizeFloat Deserialize Serialize
      (GameModeAt false) "exports/PlayerShip.fbx" "/Game/BlenderAssets" true
    = (None, Done) /\
    Executed Done = [false].
Proof.
  destruct (ImportBlenderAsset_refused Z SanitizeFloat Deserialize Serialize
              (GameModeAt false) "exports/PlayerShip.fbx" "/Game/BlenderAssets" true
              (or_intror eq_refl)) as (Done & HCall & HExec & _).
  exists Done. split; [exact HCall|exact HExec].
Defined.

(** An import asked of a connected game mode, and then refused by the
    network. *)
Lemma ImportBlenderAsset_reports_result_witness :
  exists r : HttpRequest (GameEffect bool),
    AMCPGameMode_ImportBlenderAsset Z SanitizeFloat Deserialize Serialize
      (GameModeAt true) "exports/PlayerShip.fbx" "/Game/BlenderAssets" true
    = (Some r, []) /\
    Executed (OnProcessRequestComplete r Refused) = [false] /\
    Executed (OnProcessRequestComplete r (Answer 200 ImportedText)) = [true].
Proof.
  destruct (ImportBlenderAsset_reports_result Z SanitizeFloat Deserialize Serialize
              (GameModeAt true) Manager "exports/PlayerShip.fbx" "/Game/BlenderAssets"
              true eq_refl eq_refl) as (r & HCall & _ & _ & HDone).
  exists r. split; [exact HCall|]. split.
  - destruct (HDone Refused) as [_ HFail]. apply HFail, Refused_fails.
  - destruct (HDone (Answer 200 ImportedText)) as [HOk _].
    eapply HOk, Answer_succeeds. reflexivity.
Defined.

(** Two files found in the directory. *)
Lemma ImportAllAssetsInDirectory_reports_early_witness :
  let Outcome :=
    AMCPGameMode_ImportAllAssetsInDirectory Z SanitizeFloat Deserialize Serialize
      (GameModeAt true) ["PlayerShip.fbx"; "EnemyShip.fbx"] "exports"
      "/Game/BlenderAssets" true in
  length Outcome.1 = 2%nat /\
  Executed Outcome.2 = [true] /\
  forall r c, r ∈ Outcome.1 -> Executed (OnProcessRequestComplete r c) = [].
Proof.
  intros Outcome. subst Outcome.
  generalize (ImportAllAssetsInDirectory_reports_early Z SanitizeFloat Deserialize
                Serialize (GameModeAt true) Manager ["PlayerShip.fbx"; "EnemyShip.fbx"]
                "exports" "/Game/BlenderAssets" true eq_refl eq_refl).
  destruct (AMCPGameMode_ImportAllAssetsInDirectory Z SanitizeFloat Deserialize Serialize
              (GameModeAt true) ["PlayerShip.fbx"; "EnemyShip.fbx"] "exports"
              "/Game/BlenderAssets" true) as [Requests Done].
  intros (HLength & HExec & _ & HNever). cbn [fst snd].
  split; [exact HLength|]. split; [rewrite HExec; reflexivity|exact HNever].
Defined.

(** Three enemies asked for where two are allowed. *)
Lemma enemy_count_stays_in_bounds_witness :
  let End :=
    Play (ShooterAt false false 0 0)
      [Call_StartGame;
       Call_SpawnEnemy (Some ("Enemy_0", true));
       Call_SpawnEnemy (Some ("Enemy_1", true));
       Call_SpawnEnemy (Some ("Enemy_2", true));
       Call_OnEnemyDestroyed] in
  MaxEnemyCount End = 2 /\ 0 <= CurrentEnemyCount End <= 2.
Proof.
  apply (enemy_count_stays_in_bounds (ShooterAt false false 0 0)); simpl; lia.
Defined.

(** A finished game that is asked to start again. *)
Lemma game_over_is_final_witness :
  let End :=
    Play (ShooterAt false true 300 1)
      [Call_StartGame; Call_AddScore 100; Call_SpawnEnemy (Some ("Enemy_0", true))] in
  bGameOver End = true /\ bGameStarted End = false /\ CurrentScore End = 300.
Proof.
  destruct (game_over_is_final (ShooterAt false true 300 1)
              [Call_StartGame; Call_AddScore 100;
               Call_SpawnEnemy (Some ("Enemy_0", true))] eq_refl)
    as (HOver & HStarted & HScore & _).
  split; [exact HOver|]. split; [exact HStarted|exact HScore].
Defined.

(** The start of a game. *)
Lemma shooter_phases_witness :
  PhaseOf (Dispatch (ShooterAt false false 700 0) Call_StartGame) = Running /\
  CurrentScore (Dispatch (ShooterAt false false 700 0) Call_StartGame) = 0.
Proof.
  assert (HP : PhaseOf (ShooterAt false false 700 0) <> Inconsistent) by discriminate.
  destruct (shooter_phases (ShooterAt false false 700 0) Call_StartGame HP)
    as (HPhase & HReset & _).
  split; [exact HPhase|]. apply HReset; reflexivity.
Defined.

(** The first component to ask for the asset manager. *)
Lemma component_after_InitializeComponent_witness :
  Executed (UMCPGameplayComponent_LoadBlenderAsset
              (UMCPGameplayComponent_InitializeComponent Z DoubleToInt32 SanitizeFloat
                 Atod Deserialize ProjectConfigDir ∅ None).1
              {[ "/Game/BlenderAssets/EnemyShip" := UStaticMesh "EnemyShip" ]}
              "/Game/BlenderAssets/EnemyShip" true)
  = [true].
Proof.
  assert (HI : forall M : UMCPAssetManager, None = Some M -> bInitialized M = true)
    by (intros M HM; discriminate HM).
  destruct (component_after_InitializeComponent Z DoubleToInt32 SanitizeFloat Atod
              Deserialize ProjectConfigDir unit unit (fun _ _ _ _ => true) ∅ None
              {[ "/Game/BlenderAssets/EnemyShip" := UStaticMesh "EnemyShip" ]}
              None "/Game/BlenderAssets/EnemyShip" tt tt tt HI) as (_ & HLoad & _).
  rewrite HLoad. reflexivity.
Defined.

(** An import that the network refuses. *)
Lemma ImportBlenderModel_completion_witness :
  exists Result Line,
    OnProcessRequestComplete
      (UMCPAssetManager_ImportBlenderModel Z SanitizeFloat Deserialize Serialize
         Manager "exports/EnemyShip.fbx" "/Game/BlenderAssets" Report)
      Refused
    = [UE_LOG Error Line; UE_LOG Error (ErrorMessage Result); Call Result] /\
    ErrorMessage Result = "アセットのインポートに失敗しました: exports/EnemyShip.fbx".
Proof.
  pose proof (ImportBlenderModel_completion Z SanitizeFloat Deserialize Serialize
                Manager "exports/EnemyShip.fbx" "/Game/BlenderAssets" Refused) as H.
  cbv zeta in H. destruct H as [_ HFail].
  destruct (HFail Refused_fails) as (Result & Line & HDone & _ & HMessage).
  exists Result, Line. split; [exact HDone|exact HMessage].
Defined.

(** The shooter's probe answered with status ["running"], with no
    configuration file around. *)
Lemma LoadBlenderAssets_imports_after_probe_witness :
  map URL
    (Issued (OnProcessRequestComplete
               (AMCPShooterGameMode_LoadBlenderAssets Z DoubleToInt32 SanitizeFloat Atod
                  Deserialize Serialize ProjectConfigDir ∅ None).1
               (Answer 200 (StatusText "running"))))
  = replicate 3 "http://127.0.0.1:8080/api/unreal/command".
Proof.
  pose proof (LoadBlenderAssets_imports_after_probe Z DoubleToInt32 SanitizeFloat Atod
                Deserialize Serialize ProjectConfigDir ∅ None) as H.
  cbv zeta in H. destruct H as [_ HThen].
  destruct (HThen (Answer 200 (StatusText "running"))) as (HRunning & _).
  destruct (HRunning {[ "status" := JsonString "running" ]})
    as (r1 & r2 & r3 & -> & -> & _).
  - apply Answer_succeeds. reflexivity.
  - reflexivity.
  - reflexivity.
Defined.
